(** * Agent-builder prototypes: the graph state and its operations

    Shallow embedding of the two Streamlit scripts of the repository:

    - [Canvas]  : 1Node.py, the canvas page.  Its Python part keeps
      [canvas_data] (a dict of two lists of dicts) in the session, edits the
      selected node's properties and exports the JSON configuration; the
      script embedded in the page ([createNode], [createConnection]) builds
      the same lists on the browser side.
    - [Builder] : Node.py, the dataclass page.  It keeps one [AgentFlow]
      object in the session, a registry of saved agents, and the demo
      handlers that append a node or a connection.

    Page layout, styling, charts and the drawing of shapes carry no state of
    the graph and are left out.  Values supplied from outside the program (a
    clicked button, a widget's value, [uuid.uuid4()], [Date.now()],
    [Math.random()]) are arguments of the operation that reads them. *)

From Stdlib Require Import Ascii String QArith Qminmax.
From stdpp Require Import gmap strings list fin_maps pretty.

Local Open Scope string_scope.
#[local] Set Warnings "-clear-no-such-hyp".

(** ** Script runs

    A Streamlit script run reads and writes the session; it ends normally,
    is stopped by [st.rerun()], or is aborted by a Python exception.  State
    written before the stop is kept. *)

Inductive exn :=
  | AttributeError (obj attr : string)
  | KeyError (key : string)
  | IndexError (msg : string)
  | TypeError (msg : string).

Inductive outcome (A : Type) :=
  | Done (a : A)
  | Rerun
  | Raised (e : exn).
Arguments Done {A} a.
Arguments Rerun {A}.
Arguments Raised {A} e.

Definition Script (S A : Type) : Type := S → outcome A * S.

Definition ret {S A} (a : A) : Script S A := λ s, (Done a, s).

Definition bind {S A B} (m : Script S A) (k : A → Script S B) : Script S B :=
  λ s, match m s with
       | (Done a, s') => k a s'
       | (Rerun, s') => (Rerun, s')
       | (Raised e, s') => (Raised e, s')
       end.

Definition get {S} : Script S S := λ s, (Done s, s).
Definition gets {S A} (f : S → A) : Script S A := λ s, (Done (f s), s).
Definition modify {S} (f : S → S) : Script S unit := λ s, (Done tt, f s).
Definition rerun {S A} : Script S A := λ s, (Rerun, s).
Definition raise {S A} (e : exn) : Script S A := λ s, (Raised e, s).
Definition when {S} (b : bool) (m : Script S unit) : Script S unit :=
  if b then m else ret tt.

Declare Scope script_scope.
Delimit Scope script_scope with script.
Notation "'do' x <- m ; k" := (bind m (λ x, k))
  (at level 10, x name, m at level 100, k at level 200) : script_scope.
Notation "m ;; k" := (bind m (λ _, k))
  (at level 100, k at level 200, right associativity) : script_scope.

(** A loop over the elements a list holds when the loop starts, with their
    indices; [Rerun] or an exception in the body ends the loop. *)
Fixpoint for_each {St A} (body : nat → A → Script St unit) (i : nat)
    (l : list A) : Script St unit :=
  match l with
  | [] => ret tt
  | a :: rest => (body i a ;; for_each body (S i) rest)%script
  end.

Definition failed {A} (o : outcome A) : bool :=
  match o with Raised _ => true | _ => false end.

(** ** Strings *)

(** [str.lower()] on a text of ASCII characters: the letters [A] to [Z]
    are lowered and every other character stays.  (Python also lowers the
    letters outside ASCII; what is proved of the lowered text is proved for
    ASCII texts, as the six component types are.) *)
Definition lower_ascii (c : ascii) : ascii :=
  let n := nat_of_ascii c in
  if (65 <=? n)%nat && (n <=? 90)%nat then ascii_of_nat (n + 32) else c.

Fixpoint lower (s : string) : string :=
  match s with
  | EmptyString => EmptyString
  | String c s' => String (lower_ascii c) (lower s')
  end.

(** Python [s[:n]]. *)
Definition str_prefix (n : nat) (s : string) : string := substring 0 n s.

(** JavaScript [s.slice(-n)]: the last [n] characters, all of [s] when it is
    shorter. *)
Definition slice_last (n : nat) (s : string) : string :=
  substring (String.length s - n) n s.

(** JavaScript [s.substr(start, len)]. *)
Definition substr (start len : nat) (s : string) : string :=
  substring start len s.

(** [suf] is made of the trailing characters of [s]. *)
Definition is_suffix (suf s : string) : Prop := ∃ pre, s = pre +:+ suf.

(** ** Numbers

    Python's [float] and JavaScript's numbers are IEEE 754 doubles.  A
    finite double is a rational, and a sum, difference or product of
    doubles is the double nearest to the exact result, the one with the
    even significand when two are equally near. *)

(** [num / den] rounded to the nearest integer, ties to the even one. *)
Definition round_half_even (num den : Z) : Z :=
  let k := (num / den)%Z in
  let r := (num mod den)%Z in
  if (2 * r <? den)%Z then k
  else if (den <? 2 * r)%Z then (k + 1)%Z
  else if Z.even k then k else (k + 1)%Z.

(** The exponent [e] of a positive [a / d]: [2 ^ e <= a / d < 2 ^ (e + 1)]. *)
Definition binade (a d : Z) : Z :=
  let e := (Z.log2 a - Z.log2 d)%Z in
  if (if (0 <=? e)%Z then (d * 2 ^ e <=? a)%Z else (d <=? a * 2 ^ (- e))%Z)
  then e else (e - 1)%Z.

(** The multiple of [2 ^ (- s)] nearest to [a / d]. *)
Definition round_to_ulp (a d s : Z) : Q :=
  if (0 <=? s)%Z then round_half_even (a * 2 ^ s) d # Z.to_pos (2 ^ s)
  else inject_Z (round_half_even a (d * 2 ^ (- s)) * 2 ^ (- s)).

(** The double nearest to [q].  A double has 53 significant bits, so in
    the binade [e] its last bit is worth [2 ^ (e - 52)], and never less
    than [2 ^ (- 1074)].  (Beyond the largest double the result would be
    infinite; the numbers here are canvas coordinates.) *)
Definition round_double (q : Q) : Q :=
  let a := Z.abs (Qnum q) in
  let d := Zpos (Qden q) in
  if (a =? 0)%Z then 0%Q
  else
    let r := round_to_ulp a d (Z.min (52 - binade a d) 1074) in
    Qred (if (Qnum q <? 0)%Z then (- r)%Q else r).

(** Property values of a node: strings (names, model and tool names, text
    areas) and numbers (the temperature). *)
Inductive value :=
  | VStr (s : string)
  | VNum (q : Q).

Module Canvas.

(** *** Data of 1Node.py *)

(** A node dict.  [createNode] writes [id], [type], [x], [y] and [name];
    the properties editor adds the type-specific keys.  The four keys the
    export reads with [node['k']] are fields; [name] and the type-specific
    keys, which the export reads with [.get] or tests with [in], are in
    [node_props]. *)
Record node := Node {
  node_id : string;
  node_type : string;
  node_x : Q;
  node_y : Q;
  node_props : gmap string value;
}.

(** A connection dict [{from, to, id}]. *)
Record connection := Connection {
  conn_from : string;
  conn_to : string;
  conn_id : string;
}.

(** [canvas_data = {'nodes': [...], 'connections': [...]}]. *)
Record canvas := CanvasData {
  nodes : list node;
  connections : list connection;
}.

Definition empty_canvas : canvas := CanvasData [] [].

(** The keys of [st.session_state] the script uses.  [show_json] is read
    with [.get('show_json', False)]: an absent key is [false]. *)
Record session := Session {
  canvas_data : canvas;
  selected_node : option string;
  show_json : bool;
}.

Definition initial_session : session := Session empty_canvas None false.

Definition set_canvas_data (c : canvas) (s : session) : session :=
  Session c (selected_node s) (show_json s).
Definition set_show_json (b : bool) (s : session) : session :=
  Session (canvas_data s) (selected_node s) b.

(** *** The exported configuration (lines 399-433) *)

Record node_entry := NodeEntry {
  entry_type : string;
  entry_name : value;
  entry_position : Q * Q;
  entry_config : gmap string value;
}.

Record flow_entry := FlowEntry {
  flow_from : string;
  flow_to : string;
  flow_condition : string;
}.

Record agent_config := AgentConfig {
  agent_type : string;
  created_at : string;
  config_nodes : gmap string node_entry;
  flow : list flow_entry;
}.

(** [agent_config = {"agent_type": ..., "created_at": ..., "nodes": {},
    "flow": []}] *)
Definition new_agent_config : agent_config :=
  AgentConfig "custom_visual_agent" "2024-01-01T00:00:00Z" ∅ [].

(** [agent_config["nodes"][nid]["config"][key] = v] *)
Definition set_config (nid key : string) (v : value) (cfg : agent_config)
  : agent_config :=
  AgentConfig (agent_type cfg) (created_at cfg)
    (alter (λ e, NodeEntry (entry_type e) (entry_name e) (entry_position e)
                   (<[key := v]> (entry_config e)))
           nid (config_nodes cfg))
    (flow cfg).

(** [if key in node: agent_config["nodes"][node['id']]["config"][key] =
    node[key]] *)
Definition copy_if_present (key : string) (n : node) (cfg : agent_config)
  : agent_config :=
  match node_props n !! key with
  | Some v => set_config (node_id n) key v cfg
  | None => cfg
  end.

(** Body of [for node in canvas_data['nodes']]. *)
Definition process_node (cfg : agent_config) (n : node) : agent_config :=
  let entry :=
    NodeEntry (lower (node_type n))
              (default (VStr (node_type n)) (node_props n !! "name"))
              (node_x n, node_y n)
              ∅ in
  let cfg := AgentConfig (agent_type cfg) (created_at cfg)
               (<[node_id n := entry]> (config_nodes cfg)) (flow cfg) in
  let cfg := copy_if_present "model" n cfg in
  let cfg := copy_if_present "temperature" n cfg in
  copy_if_present "tool_type" n cfg.

(** Body of [for conn in canvas_data['connections']]. *)
Definition process_connection (cfg : agent_config) (c : connection)
  : agent_config :=
  AgentConfig (agent_type cfg) (created_at cfg) (config_nodes cfg)
    (flow cfg ++ [FlowEntry (conn_from c) (conn_to c) "default"]).

(** The document built from a canvas. *)
Definition to_config (c : canvas) : agent_config :=
  foldl process_connection
        (foldl process_node new_agent_config (nodes c))
        (connections c).

(** *** One run of the page script *)

(** What the user did before the run: the buttons clicked and the values
    the widgets return. *)
Record widgets := Widgets {
  clear_canvas_clicked : bool;
  export_json_clicked : bool;
  hide_json_clicked : bool;
  node_name_input : string;
  model_choice : string;
  temperature_slider : Q;
  tool_type_choice : string;
  parameters_input : string;
  memory_type_choice : string;
  routing_logic_input : string;
}.



(** Lines 99-101. *)
Definition clear_canvas (w : widgets) : Script session unit :=
  when (clear_canvas_clicked w)
    (modify (set_canvas_data empty_canvas) ;; rerun)%script.

(** Lines 103-104. *)
Definition export_json (w : widgets) : Script session unit :=
  when (export_json_clicked w) (modify (set_show_json true)).

(** [selected_node[key] = v] *)
Definition set_prop (key : string) (v : value) (n : node) : node :=
  Node (node_id n) (node_type n) (node_x n) (node_y n)
       (<[key := v]> (node_props n)).

(** Lines 124-154, the assignments to the selected node's dict. *)
Definition edit_node (w : widgets) (n : node) : node :=
  let n := set_prop "name" (VStr (node_name_input w)) n in
  if String.eqb (node_type n) "LLM" then
    let n := set_prop "model" (VStr (model_choice w)) n in
    set_prop "temperature" (VNum (temperature_slider w)) n
  else if String.eqb (node_type n) "Tool" then
    let n := set_prop "tool_type" (VStr (tool_type_choice w)) n in
    set_prop "parameters" (VStr (parameters_input w)) n
  else if String.eqb (node_type n) "Memory" then
    set_prop "memory_type" (VStr (memory_type_choice w)) n
  else if String.eqb (node_type n) "Router" then
    set_prop "routing_logic" (VStr (routing_logic_input w)) n
  else n.

(** Lines 109-120: [selected_node] is truthy (neither [None] nor the empty
    string) and the first node with that id is looked up. *)
Definition find_selected (s : session) : option (nat * node) :=
  match selected_node s with
  | None => None
  | Some "" => None
  | Some sel => list_find (λ n, node_id n = sel) (nodes (canvas_data s))
  end.

(** Lines 109-156.  The dict found is the one in the list, so the
    assignments change the list's element. *)
Definition node_properties_editor (w : widgets) : Script session unit :=
  (do s <- get;
   match find_selected s with
   | Some (i, n) =>
       modify (set_canvas_data
                 (CanvasData (<[i := edit_node w n]> (nodes (canvas_data s)))
                             (connections (canvas_data s))))
   | None => ret tt
   end)%script.

(** Lines 402-433: the document is built from the session's canvas. *)
Definition generate_agent_config : Script session agent_config :=
  (do c <- gets canvas_data; ret (to_config c))%script.

(** Lines 399-450: the document is built and shown; "Hide JSON" clears the
    flag and stops the run. *)
Definition json_export_section (w : widgets) : Script session (option agent_config) :=
  (do shown <- gets show_json;
   if shown : bool then
     do agent_config <- generate_agent_config;
     when (hide_json_clicked w) (modify (set_show_json false) ;; rerun) ;;
     ret (Some agent_config)
   else ret None)%script.

(** The script from top to bottom. *)
Definition script_run (w : widgets) : Script session (option agent_config) :=
  (clear_canvas w ;;
   export_json w ;;
   node_properties_editor w ;;
   json_export_section w)%script.

(** *** The script embedded in the page (lines 172-373)

    The browser side keeps its own [canvasState], initialised from the
    session's [canvas_data], and the fabric canvas.  Of the canvas only the
    node groups are kept: they carry [nodeId] and receive the clicks.  The
    rectangle, text, line and arrow head are drawings.  An exception thrown
    in a handler is [Raised]; [Rerun] does not occur. *)

(** [componentTemplates]: the own properties of the object literal, each
    with its [color], the one field read outside the drawing. *)
Definition componentTemplates : gmap string string :=
  list_to_map [("Input", "#4CAF50"); ("LLM", "#2196F3"); ("Tool", "#FF9800");
               ("Memory", "#9C27B0"); ("Router", "#F44336");
               ("Output", "#795548")].

(** The properties an object literal inherits from [Object.prototype] in a
    browser.  Their values are functions and, for [__proto__], the
    prototype object itself: every one of them is truthy and none has a
    [color] or an [icon]. *)
Definition object_prototype_keys : list string :=
  ["constructor"; "hasOwnProperty"; "isPrototypeOf"; "propertyIsEnumerable";
   "toLocaleString"; "toString"; "valueOf"; "__proto__";
   "__defineGetter__"; "__defineSetter__";
   "__lookupGetter__"; "__lookupSetter__"].

(** What [componentTemplates[type]] finds: an own template, or a value
    inherited from [Object.prototype], whose [color] is [undefined]. *)
Inductive template :=
  | own_template (color : string)
  | inherited_value.

(** [componentTemplates[type]]; [None] is [undefined]. *)
Definition template_of (type : string) : option template :=
  match componentTemplates !! type with
  | Some color => Some (own_template color)
  | None =>
      if bool_decide (type ∈ object_prototype_keys) then Some inherited_value
      else None
  end.

(** A node group on the canvas.  [group_obj] is the identity of the object,
    which [!==] compares. *)
Record group := Group {
  group_obj : nat;
  nodeId : string;
  nodeType : string;
  group_left : Q;
  group_top : Q;
}.

(** [window.parent.postMessage] payloads. *)
Inductive message :=
  | node_selected (nid : string)
  | canvas_updated (data : canvas).

Record page := Page {
  canvasState : canvas;
  canvas_objects : list group;
  objects_created : nat;
  selectedNodeId : option string;
  connectionMode : bool;
  connectionStart : option group;
  posted : list message;
}.

(** The page as loaded for a session's [canvas_data], before
    [renderExistingState]. *)
Definition load_page (c : canvas) : page := Page c [] 0 None false None [].

Definition set_canvasState (c : canvas) (p : page) : page :=
  Page c (canvas_objects p) (objects_created p) (selectedNodeId p)
       (connectionMode p) (connectionStart p) (posted p).
Definition set_connection (mode : bool) (start : option group) (p : page) : page :=
  Page (canvasState p) (canvas_objects p) (objects_created p)
       (selectedNodeId p) mode start (posted p).
Definition set_selectedNodeId (nid : string) (p : page) : page :=
  Page (canvasState p) (canvas_objects p) (objects_created p) (Some nid)
       (connectionMode p) (connectionStart p) (posted p).
Definition postMessage (m : message) (p : page) : page :=
  Page (canvasState p) (canvas_objects p) (objects_created p)
       (selectedNodeId p) (connectionMode p) (connectionStart p)
       (posted p ++ [m]).

(** [new fabric.Group(...)] followed by [canvas.add(group)]. *)
Definition canvas_add_group (nid type : string) (left top : Q) : Script page group :=
  λ p, let g := Group (objects_created p) nid type left top in
       (Done g,
        Page (canvasState p) (canvas_objects p ++ [g]) (S (objects_created p))
             (selectedNodeId p) (connectionMode p) (connectionStart p)
             (posted p)).

(** [canvas.clear()] *)
Definition canvas_clear (p : page) : page :=
  Page (canvasState p) [] (objects_created p) (selectedNodeId p)
       (connectionMode p) (connectionStart p) (posted p).

(** Lines 306-311. *)
Definition updateStreamlitState : Script page unit :=
  (do p <- get; modify (postMessage (canvas_updated (canvasState p))))%script.

(** ['node_' + Date.now() + '_' + Math.random().toString(36).substr(2, 9)]
    where [now] is the clock's milliseconds and [rnd] the base-36 text of
    the random number. *)
Definition new_node_id (now : N) (rnd : string) : string :=
  "node_" +:+ pretty now +:+ "_" +:+ substr 2 9 rnd.

(** Lines 189-259.  When [componentTemplates[type]] is [undefined], reading
    [template.color] throws before anything is added.  Otherwise the colour
    read, which may be [undefined], only fills the rectangle.  [x - 60] and
    [y - 40] are differences of doubles. *)
Definition createNode (type : string) (x y : Q) (now : N) (rnd : string)
  : Script page group :=
  let nodeId := new_node_id now rnd in
  match template_of type with
  | None => raise (TypeError "template is undefined")
  | Some _ =>
      (do group <- canvas_add_group nodeId type
                  (round_double (x - 60)) (round_double (y - 40));
       modify (λ p, set_canvasState
                      (CanvasData
                         (nodes (canvasState p) ++
                          [Node nodeId type x y
                             {[ "name" := VStr (type +:+ "_" +:+ slice_last 4 nodeId) ]}])
                         (connections (canvasState p))) p) ;;
       updateStreamlitState ;;
       ret group)%script
  end.

(** ['conn_' + Date.now()] *)
Definition new_conn_id (now : N) : string := "conn_" +:+ pretty now.

(** Lines 262-303. *)
Definition createConnection (startNode endNode : group) (now : N)
  : Script page unit :=
  (modify (λ p, set_canvasState
                  (CanvasData
                     (nodes (canvasState p))
                     (connections (canvasState p) ++
                      [Connection (nodeId startNode) (nodeId endNode)
                                  (new_conn_id now)])) p) ;;
   updateStreamlitState)%script.

(** Lines 222-244, the [mousedown] listener of [group]. *)
Definition on_mousedown (group : group) (now : N) : Script page unit :=
  (do p <- get;
   if connectionMode p then
     match connectionStart p with
     | None => modify (set_connection true (Some group))
     | Some start =>
         if bool_decide (group_obj start ≠ group_obj group) then
           createConnection start group now ;;
           modify (set_connection false None)
         else ret tt
     end
   else
     modify (set_selectedNodeId (nodeId group)) ;;
     modify (postMessage (node_selected (nodeId group))))%script.

(** A click on the [i]-th object of the canvas: only the groups on the
    canvas receive clicks. *)
Definition click_object (i : nat) (now : N) : Script page unit :=
  (do p <- get;
   match canvas_objects p !! i with
   | Some group => on_mousedown group now
   | None => ret tt
   end)%script.

(** Lines 314-323.  [answer] is what [prompt] returned ([None] when it was
    cancelled). *)
Definition on_dblclick (x y : Q) (answer : option string) (now : N)
    (rnd : string) : Script page unit :=
  (do p <- get;
   if connectionMode p then ret tt
   else match answer with
        | None | Some "" => ret tt
        | Some type =>
            if bool_decide (is_Some (template_of type))
            then createNode type x y now rnd ;; ret tt
            else ret tt
        end)%script.

(** Lines 326-332. *)
Definition on_keydown (key : string) : Script page unit :=
  (do p <- get;
   when (String.eqb key "c" || String.eqb key "C")
        (modify (set_connection (negb (connectionMode p)) (connectionStart p))))%script.

(** Lines 350-356, a ['clear_canvas'] message. *)
Definition on_clear_canvas : Script page unit :=
  (modify canvas_clear ;; modify (set_canvasState empty_canvas))%script.

(** Lines 335-347.  [forEach] visits the nodes the list holds when it
    starts; [createNode] appends to that same list.  [draws i] is the clock
    value and the random text read while node [i] is created again. *)
Definition renderExistingState (draws : nat → N * string) : Script page unit :=
  (modify canvas_clear ;;
   do p <- get;
   for_each (λ i node,
               createNode (node_type node) (node_x node) (node_y node)
                          (draws i).1 (draws i).2 ;;
               ret tt)
            0 (nodes (canvasState p)))%script.

(** What happens on the page, one event at a time. *)
Inductive event :=
  | DblClick (x y : Q) (answer : option string) (now : N) (rnd : string)
  | KeyDown (key : string)
  | Click (i : nat) (now : N)
  | ClearCanvasMessage.

Definition handle (e : event) : Script page unit :=
  match e with
  | DblClick x y answer now rnd => on_dblclick x y answer now rnd
  | KeyDown key => on_keydown key
  | Click i now => click_object i now
  | ClearCanvasMessage => on_clear_canvas
  end.

(** The page after a sequence of events; an exception ends the handler that
    threw it, not the page. *)
Definition page_after (events : list event) (p : page) : page :=
  foldl (λ p e, snd (handle e p)) p events.

End Canvas.

Module Builder.

(** *** Data of Node.py (lines 66-88) *)

Record NodeConfig := mkNodeConfig {
  node_id : string;
  node_type : string;
  node_name : string;
  node_x : Q;
  node_y : Q;
  node_properties : gmap string value;
}.

Record Connection := mkConnection {
  conn_id : string;
  from_node : string;
  to_node : string;
  from_port : string;
  to_port : string;
  condition : option string;
}.

Record AgentFlow := mkAgentFlow {
  nodes : list NodeConfig;
  connections : list Connection;
  metadata : gmap string value;
}.

(** [AgentFlow([], [], {})] *)
Definition empty_flow : AgentFlow := mkAgentFlow [] [] ∅.

Record stats := Stats {
  total_runs : nat;
  successful_runs : nat;
  failed_runs : nat;
  avg_response_time : Q;
}.

(** [st.session_state].  [agent_flow] and the values of [saved_agents] are
    references to [AgentFlow] objects: [objects] holds the objects by
    address, so that two references to one object see each other's
    changes.  The lists of an [AgentFlow] are reached through it only.  The
    keys the script initialises and never reads again ([canvas_data],
    [agent_running], [api_status], [conversation_history],
    [current_agent_config]) are left out. *)
Record session := Session {
  objects : gmap nat AgentFlow;
  agent_flow : nat;
  execution_log : list string;
  saved_agents : gmap string nat;
  execution_stats : stats;
}.

(** [initialize_session_state] on a new session (lines 99-120). *)
Definition initial_session : session :=
  Session {[ 0%nat := empty_flow ]} 0 [] ∅ (Stats 0 0 0 0).

(** The object a reference points to. *)
Definition deref (s : session) (l : nat) : AgentFlow :=
  default empty_flow (objects s !! l).

(** [st.session_state.agent_flow], dereferenced. *)
Definition current_flow (s : session) : AgentFlow := deref s (agent_flow s).

(** The graph stored under [name], if any. *)
Definition saved_flow (s : session) (name : string) : option AgentFlow :=
  deref s <$> saved_agents s !! name.

(** Every reference of the session points to an object. *)
Definition wf (s : session) : Prop :=
  is_Some (objects s !! agent_flow s) ∧
  ∀ name l, saved_agents s !! name = Some l → is_Some (objects s !! l).

(** What a run shows with [st.success] and [st.warning]. *)
Inductive notice :=
  | success (msg : string)
  | warning (msg : string).

(** The state of a run: the session and the notices shown so far. *)
Record run := Run {
  session_state : session;
  shown : list notice;
}.

Definition start (s : session) : run := Run s [].

Definition update (f : session → session) : Script run unit :=
  modify (λ r, Run (f (session_state r)) (shown r)).
Definition notify (n : notice) : Script run unit :=
  modify (λ r, Run (session_state r) (shown r ++ [n])).

Definition set_objects (o : gmap nat AgentFlow) (s : session) : session :=
  Session o (agent_flow s) (execution_log s) (saved_agents s) (execution_stats s).
Definition set_agent_flow (l : nat) (s : session) : session :=
  Session (objects s) l (execution_log s) (saved_agents s) (execution_stats s).
Definition set_saved_agents (m : gmap string nat) (s : session) : session :=
  Session (objects s) (agent_flow s) (execution_log s) m (execution_stats s).
Definition set_execution_stats (t : stats) (s : session) : session :=
  Session (objects s) (agent_flow s) (execution_log s) (saved_agents s) t.

(** [st.session_state.execution_log.append(entry)] *)
Definition log_append (entry : string) (s : session) : session :=
  Session (objects s) (agent_flow s) (execution_log s ++ [entry])
          (saved_agents s) (execution_stats s).

(** [st.session_state.agent_flow = AgentFlow([], [], {})]: a new object. *)
Definition new_agent_flow (s : session) : session :=
  let l := fresh (dom (objects s)) in
  set_agent_flow l (set_objects (<[l := empty_flow]> (objects s)) s).

(** A change made in place to the object [agent_flow] refers to. *)
Definition mutate_flow (f : AgentFlow → AgentFlow) (s : session) : session :=
  set_objects (alter f (agent_flow s) (objects s)) s.

(** [agent_flow.nodes.append(n)] and [agent_flow.connections.append(c)] *)
Definition nodes_append (n : NodeConfig) (f : AgentFlow) : AgentFlow :=
  mkAgentFlow (nodes f ++ [n]) (connections f) (metadata f).
Definition connections_append (c : Connection) (f : AgentFlow) : AgentFlow :=
  mkAgentFlow (nodes f) (connections f ++ [c]) (metadata f).

(** *** The handlers *)

(** "Clear" (lines 156-159). *)
Definition clear : Script run unit :=
  (update new_agent_flow ;; rerun)%script.

(** "Save" (lines 161-164): the reference is stored, not a copy. *)
Definition save (agent_name : string) : Script run unit :=
  (update (λ s, set_saved_agents
                  (<[agent_name := agent_flow s]> (saved_agents s)) s) ;;
   notify (success "Agent saved!"))%script.

(** "Load Agent" (lines 165-170).  The select box is drawn when something
    was saved; [selected_agent] is its value, [""] or a saved name. *)
Definition load (selected_agent : string) : Script run unit :=
  (do r <- get;
   let saved := saved_agents (session_state r) in
   if bool_decide (saved = ∅) then ret tt
   else if String.eqb selected_agent "" then ret tt
   else match saved !! selected_agent with
        | None => raise (KeyError selected_agent)
        | Some l =>
            update (set_agent_flow l) ;;
            notify (success "Loaded agent!") ;;
            rerun
        end)%script.

(** "Simulate Run" (lines 201-214); [simulated_response] is what
    [random.choice] picked. *)
Definition simulate_run (input_prompt simulated_response : string)
  : Script run unit :=
  (update (λ s, let t := execution_stats s in
                set_execution_stats
                  (Stats (total_runs t + 1) (successful_runs t)
                         (failed_runs t) (avg_response_time t)) s) ;;
   update (λ s, let t := execution_stats s in
                set_execution_stats
                  (Stats (total_runs t) (successful_runs t + 1)
                         (failed_runs t) (avg_response_time t)) s) ;;
   update (log_append ("Prompt: " +:+ input_prompt +:+
                       String "010" "Agent (simulated): " +:+
                       simulated_response)) ;;
   notify (success simulated_response))%script.

(** "Add Demo Node" (lines 245-250); [new_id] is [str(uuid.uuid4())], [rx]
    and [ry] are the two values of [np.random.rand()], and the two
    products are products of doubles. *)
Definition demo_node (new_id : string) (rx ry : Q) : NodeConfig :=
  mkNodeConfig new_id "Input" ("Input_" +:+ str_prefix 4 new_id)
               (round_double (rx * 400)) (round_double (ry * 400)) ∅.

Definition add_demo_node (new_id : string) (rx ry : Q) : Script run unit :=
  let demo_node := demo_node new_id rx ry in
  (update (mutate_flow (nodes_append demo_node)) ;;
   update (log_append ("Added demo node: " +:+ node_name demo_node)) ;;
   rerun)%script.

(** [nodes.id]: a list object has no attribute [id]. *)
Definition list_id {A} : Script run A := raise (AttributeError "list" "id").

(** [nodes[-1]] *)
Definition last_node (l : list NodeConfig) : Script run NodeConfig :=
  match last l with
  | Some n => ret n
  | None => raise (IndexError "list index out of range")
  end.

(** "Add Demo Connection" (lines 252-266); [conn_id] is
    [str(uuid.uuid4())].  The arguments of [Connection(...)] are evaluated
    in the order written. *)
Definition add_demo_connection (conn_id : string) : Script run unit :=
  (do r <- get;
   let ns := nodes (current_flow (session_state r)) in
   if (2 <=? length ns)%nat then
     do first_id <- list_id;
     do last <- last_node ns;
     let c := mkConnection conn_id first_id (node_id last)
                           "output" "input" None in
     update (mutate_flow (connections_append c)) ;;
     update (log_append ("Added demo connection from " +:+
                         str_prefix 4 (from_node c) +:+ " to " +:+
                         str_prefix 4 (to_node c))) ;;
     rerun
   else notify (warning "Add at least 2 nodes first."))%script.

(** One run of the script: at most one button is clicked in a run, and the
    rest of the script only draws tables and charts. *)
Inductive click :=
  | Clear
  | Save (agent_name : string)
  | Load (selected_agent : string)
  | SimulateRun (input_prompt simulated_response : string)
  | AddDemoNode (new_id : string) (rx ry : Q)
  | AddDemoConnection (conn_id : string).

Definition script_run (c : click) : Script run unit :=
  match c with
  | Clear => clear
  | Save agent_name => save agent_name
  | Load selected_agent => load selected_agent
  | SimulateRun input_prompt simulated_response =>
      simulate_run input_prompt simulated_response
  | AddDemoNode new_id rx ry => add_demo_node new_id rx ry
  | AddDemoConnection conn_id => add_demo_connection conn_id
  end.

(** The session after a run that started from [s]. *)
Definition after (c : click) (s : session) : session :=
  session_state (snd (script_run c (start s))).

(** The session after a sequence of runs, one click each. *)
Definition after_all (clicks : list click) (s : session) : session :=
  foldl (λ s c, after c s) s clicks.

(** [reversed(st.session_state.execution_log[-10:])], the entries the
    sidebar and the analytics tab show (lines 175 and 238). *)
Definition recent_log (log : list string) : list string :=
  reverse (drop (length log - 10) log).

(** The run refused what was asked: it raised, or it showed a warning. *)
Definition rejected (res : outcome unit * run) : Prop :=
  failed (fst res) = true ∨ ∃ msg, warning msg ∈ shown (snd res).

End Builder.

(** * Terms of the properties

    The predicates the properties are stated with, and the sample states
    they are tried on. *)

Section DocumentTerms.
Import Canvas.

(** Every endpoint in [flow] is a key of ["nodes"]. *)
Definition referential_integrity (cfg : agent_config) : Prop :=
  ∀ e, e ∈ flow cfg →
    is_Some (config_nodes cfg !! flow_from e) ∧
    is_Some (config_nodes cfg !! flow_to e).

(** Every connection of the canvas joins ids of nodes of the canvas. *)
Definition endpoints_exist (c : canvas) : Prop :=
  ∀ k, k ∈ connections c →
    conn_from k ∈ node_id <$> nodes c ∧ conn_to k ∈ node_id <$> nodes c.

(** A canvas whose only connection joins two ids that no node has. *)
Definition dangling_canvas : canvas :=
  CanvasData [] [Connection "missing" "also-missing" "conn_1"].

(** The user's inputs of a run in which nothing is clicked. *)
Definition idle : widgets :=
  Widgets false false false "" "gpt-3.5-turbo" (7 # 10) "web_search" "{}"
          "conversation_buffer" "Define routing conditions...".

End DocumentTerms.

(** The inputs of a run in which "Clear Canvas" is clicked. *)
Definition click_clear_canvas : Canvas.widgets :=
  Canvas.Widgets true false false "" "gpt-3.5-turbo" (7 # 10) "web_search"
                 "{}" "conversation_buffer" "Define routing conditions...".

(** A canvas with an input node, an LLM node and a connection. *)
Definition sample_canvas : Canvas.canvas :=
  Canvas.CanvasData
    [Canvas.Node "node_1_a" "Input" 10 10 {[ "name" := VStr "q" ]};
     Canvas.Node "node_2_b" "LLM" 200 10 {[ "name" := VStr "LLM_2_b" ]}]
    [Canvas.Connection "node_1_a" "node_2_b" "conn_3"].

Section TemperatureTerms.
Import Canvas.



(** The ["config"] the export builds for a node: the keys [model],
    [temperature] and [tool_type] the node has. *)
Definition copy_key (key : string) (n : node) (m : gmap string value)
  : gmap string value :=
  match node_props n !! key with
  | Some v => <[key := v]> m
  | None => m
  end.

(** The entry the export builds for a node. *)
Definition entry_of (n : node) : node_entry :=
  NodeEntry (lower (node_type n))
            (default (VStr (node_type n)) (node_props n !! "name"))
            (node_x n, node_y n)
            (copy_key "tool_type" n
               (copy_key "temperature" n (copy_key "model" n ∅))).

Definition slider_at_half : widgets :=
  Widgets false false false "q" "gpt-4" (1 # 2) "web_search" "{}"
          "conversation_buffer" "Define routing conditions...".

(** A session whose selected node is an LLM node. *)
Definition llm_selected : session :=
  Session (CanvasData [Node "node_1_a" "Input" 10 10 {[ "name" := VStr "q" ]};
                       Node "node_2_b" "LLM" 200 10 {[ "name" := VStr "LLM_2_b" ]}]
                      [Connection "node_1_a" "node_2_b" "conn_3"])
          (Some "node_2_b") true.

End TemperatureTerms.

Section HandlerTerms.
Import Builder.

(** A session whose graph has two demo nodes. *)
Definition two_nodes : session :=
  after (AddDemoNode "9f1c2d3e-0000-4000-8000-000000000002" (1 # 4) (1 # 2))
    (after (AddDemoNode "1a2b3c4d-0000-4000-8000-000000000001" (1 # 2) (1 # 4))
       initial_session).

End HandlerTerms.

(** The characters of a string. *)
Fixpoint chars (s : string) : list ascii :=
  match s with
  | EmptyString => []
  | String c s' => c :: chars s'
  end.

(** The character that separates the parts of an id. *)
Definition underscore : ascii := "_".

(** The name is the type, an underscore and trailing characters of the id. *)
Definition default_name (type id name : string) : Prop :=
  ∃ suf, is_suffix suf id ∧ name = type +:+ "_" +:+ suf.

(** The node [createNode] pushes. *)
Definition created_node (type : string) (x y : Q) (now : N) (rnd : string)
  : Canvas.node :=
  let nodeId := Canvas.new_node_id now rnd in
  Canvas.Node nodeId type x y
    {[ "name" := VStr (type +:+ "_" +:+ slice_last 4 nodeId) ]}.

(** A value of [str(uuid.uuid4())]. *)
Definition sample_uuid : string := "1a2b3c4d-0000-4000-8000-000000000001".

(** A sequence of "Add Demo Node" clicks, one run each, with the values
    each run draws. *)
Fixpoint add_demo_nodes (draws : list (string * Q * Q)) (s : Builder.session)
  : Builder.session :=
  match draws with
  | [] => s
  | (new_id, rx, ry) :: rest =>
      add_demo_nodes rest (Builder.after (Builder.AddDemoNode new_id rx ry) s)
  end.

(** The ids of the current graph's nodes. *)
Definition node_ids (s : Builder.session) : list string :=
  Builder.node_id <$> Builder.nodes (Builder.current_flow s).

Section ConnectionTerms.
Import Canvas.

(** A group that was never added to the canvas: no node has its id. *)
Definition ghost : group := Group 7 "ghost" "LLM" 0 0.

(** The page after these steps: a node is added and chosen as the start of a
    connection; a ['clear_canvas'] message empties the canvas, which leaves
    [connectionStart] as it is; connection mode is left, a second node is
    added, connection mode is entered again and the second node clicked. *)
Definition stale_start_page : page :=
  page_after
    [DblClick 100 100 (Some "Input") 1000 "0.aaaaaaaaaaaa";
     KeyDown "c";
     Click 0 1001;
     ClearCanvasMessage;
     KeyDown "c";
     DblClick 300 100 (Some "LLM") 1002 "0.bbbbbbbbbbbb";
     KeyDown "c";
     Click 0 1003]
    (load_page empty_canvas).

(** The groups the page holds carry ids of nodes, and so do the ends of the
    connections. *)
Definition page_ok (p : page) : Prop :=
  (∀ g, g ∈ canvas_objects p → nodeId g ∈ node_id <$> nodes (canvasState p)) ∧
  (∀ g, connectionStart p = Some g →
        nodeId g ∈ node_id <$> nodes (canvasState p)) ∧
  endpoints_exist (canvasState p).

End ConnectionTerms.

Section ExportTerms.
Import Canvas.

(** The keys the export copies into ["config"]. *)
Definition exported_keys : list string := ["model"; "temperature"; "tool_type"].

(** The nodes of the canvas that carry a given id, in the order of the list. *)
Definition nodes_with_id (nid : string) (c : canvas) : list node :=
  filter (λ n, node_id n = nid) (nodes c).

(** A text of ASCII characters only. *)
Definition ascii_only (s : string) : Prop :=
  Forall (λ c, (nat_of_ascii c < 128)%nat) (chars s).

(** The flow entry the export writes for a connection. *)
Definition flow_entry_of (k : connection) : flow_entry :=
  FlowEntry (conn_from k) (conn_to k) "default".

End ExportTerms.

Section EditorTerms.
Import Canvas.

(** The session after the properties editor ran with the inputs [w]. *)
Definition edited (w : widgets) (s : session) : session :=
  snd (node_properties_editor w s).

(** The ["config"] of every entry of a document. *)
Definition exported_configs (c : canvas) : gmap string (gmap string value) :=
  entry_config <$> config_nodes (to_config c).

(** A session whose selected node is a memory node. *)
Definition memory_selected : session :=
  Session (CanvasData [Node "node_1_a" "Input" 10 10 {[ "name" := VStr "q" ]};
                       Node "node_3_c" "Memory" 200 10 {[ "name" := VStr "Memory_3_c" ]}]
                      [Connection "node_1_a" "node_3_c" "conn_4"])
          (Some "node_3_c") true.

(** The inputs of a run in which "Export JSON" is clicked. *)
Definition click_export_json : widgets :=
  Widgets false true false "q" "gpt-4" (1 # 2) "web_search" "{}"
          "conversation_buffer" "Define routing conditions...".

End EditorTerms.

Section PageTerms.
Import Canvas.

(** The names [componentTemplates] has a template of its own for. *)
Definition component_types : list string :=
  ["Input"; "LLM"; "Tool"; "Memory"; "Router"; "Output"].

(** The canvas state of the last ['canvas_updated'] message, if any. *)
Definition last_canvas_update (msgs : list message) : option canvas :=
  last (omap (λ m, match m with
                   | canvas_updated data => Some data
                   | node_selected _ => None
                   end) msgs).

(** The node [renderExistingState] creates for the [i]-th stored node. *)
Definition recreated (draws : nat → N * string) (i : nat) (n : node) : node :=
  created_node (node_type n) (node_x n) (node_y n) (draws i).1 (draws i).2.

(** Every node of a canvas has a type with a template. *)
Definition types_known (c : canvas) : Prop :=
  Forall (λ n, is_Some (componentTemplates !! node_type n)) (nodes c).

(** The identities of the groups on the canvas are pairwise distinct and
    below the count of objects created. *)
Definition objects_distinct (p : page) : Prop :=
  NoDup (group_obj <$> canvas_objects p) ∧
  ∀ g, g ∈ canvas_objects p → (group_obj g < objects_created p)%nat.

(** The page after two nodes were added and connection mode entered. *)
Definition two_node_page : page :=
  page_after
    [DblClick 100 100 (Some "Input") 1000 "0.aaaaaaaaaaaa";
     DblClick 300 100 (Some "LLM") 1002 "0.bbbbbbbbbbbb";
     KeyDown "c"]
    (load_page empty_canvas).

(** Clock value 1 and random text ["0.cccccccccccc"] at every read. *)
Definition constant_draws : nat → N * string := λ _, (1%N, "0.cccccccccccc").

End PageTerms.

Section BuilderTerms.
Import Builder.

(** The clicks that start a simulated run, and the clicks that write a log
    entry. *)
Definition is_simulate_run (c : click) : bool :=
  match c with SimulateRun _ _ => true | _ => false end.
Definition writes_log (c : click) : bool :=
  match c with SimulateRun _ _ | AddDemoNode _ _ _ => true | _ => false end.

(** How many of the clicks satisfy [f]. *)
Definition count_clicks (f : click → bool) (clicks : list click) : nat :=
  length (filter (λ c, f c = true) clicks).

(** A sequence of clicks that saves, adds nodes, simulates, clears and
    loads. *)
Definition sample_clicks : list click :=
  [AddDemoNode "1a2b3c4d-0000-4000-8000-000000000001" (1 # 2) (1 # 4);
   Save "MyAgent";
   SimulateRun "What is the capital of France?" "Paris is the capital city of France.";
   Clear;
   AddDemoNode "9f1c2d3e-0000-4000-8000-000000000002" (1 # 4) (1 # 2);
   AddDemoConnection "5e6f7a8b-0000-4000-8000-000000000003";
   Load "MyAgent";
   SimulateRun "And of Spain?" "The capital of France is Paris."].

End BuilderTerms.

Section NumberTerms.

(** The largest double below 1: [1 - 2 ^ (- 53)]. *)
Definition below_one : Q := 9007199254740991 # 9007199254740992.

(** [q] is a double. *)
Definition is_double (q : Q) : Prop := (round_double q == q)%Q.

End NumberTerms.

Section RegistryTerms.
Import Builder.

(** A session in which the current graph was saved under the empty name. *)
Definition saved_under_empty_name : session := after (Save "") initial_session.

End RegistryTerms.

Section StaleStartTerms.
Import Canvas.

(** The events by which a new node is added and clicked after a
    ['clear_canvas'] message: connection mode is left, the node is added,
    connection mode is entered again, and the node, the only group on the
    canvas, is clicked. *)
Definition clear_then_connect (type : string) (x y : Q) (now : N) (rnd : string)
    (now' : N) : list event :=
  [ClearCanvasMessage; KeyDown "c"; DblClick x y (Some type) now rnd;
   KeyDown "c"; Click 0 now'].

(** The start of a connection, if one is chosen, is an object created
    earlier. *)
Definition start_created (p : page) : Prop :=
  ∀ g, connectionStart p = Some g → (group_obj g < objects_created p)%nat.

(** A canvas whose second node has a type [componentTemplates[type]] finds
    nothing for. *)
Definition canvas_with_prompt_node : canvas :=
  CanvasData
    [Node "node_1_a" "Input" 10 10 {[ "name" := VStr "q" ]};
     Node "node_5_e" "Prompt" 100 10 {[ "name" := VStr "Prompt_5_e" ]};
     Node "node_2_b" "LLM" 200 10 {[ "name" := VStr "LLM_2_b" ]}]
    [].

End StaleStartTerms.

(** * Properties *)

Local Close Scope string_scope.

(** ** Doubles *)

Section Numbers.
Local Open Scope Z_scope.

Lemma round_half_even_error num den :
  0 < den →
  let k := round_half_even num den in
  2 * (k * den - num) <= den ∧ 2 * (num - k * den) <= den.
Proof.
  intros Hden k. subst k. unfold round_half_even.
  pose proof (Z.div_mod num den ltac:(lia)) as Hdm.
  pose proof (Z.mod_pos_bound num den Hden) as Hr.
  destruct (Z.ltb_spec (2 * (num mod den)) den);
    [|destruct (Z.ltb_spec den (2 * (num mod den)));
      [|destruct (Z.even (num / den))]]; nia.
Qed.

Lemma round_half_even_nonneg num den :
  0 <= num → 0 < den → 0 <= round_half_even num den.
Proof.
  intros Hnum Hden. unfold round_half_even.
  pose proof (Z.div_pos num den Hnum Hden).
  repeat destruct (_ <? _); try destruct (Z.even _); lia.
Qed.

(** A positive rational below [2 ^ b] lies in a binade below [b]. *)
Lemma binade_lt a d b :
  0 < a → 0 < d → 0 <= b → a < d * 2 ^ b → binade a d < b.
Proof.
  intros Ha Hd Hb Hlt. unfold binade.
  pose proof (Z.log2_nonneg a) as Hla. pose proof (Z.log2_nonneg d) as Hld.
  assert (Z.log2 a - Z.log2 d <= b) as He0.
  { destruct (Z.log2_spec d Hd) as [_ Hd2].
    assert (a < 2 ^ (Z.log2 d + 1 + b)) as Ha2.
    { rewrite Z.pow_add_r by lia. 
      pose proof (Z.pow_pos_nonneg 2 b ltac:(lia) Hb).
      replace (Z.succ (Z.log2 d)) with (Z.log2 d + 1) in Hd2 by lia. nia. }
    apply Z.log2_lt_pow2 in Ha2; lia. }
  destruct (Z.eq_dec (Z.log2 a - Z.log2 d) b) as [Heq|Hne].
  - rewrite Heq. destruct (Z.leb_spec 0 b); [|lia].
    destruct (Z.leb_spec (d * 2 ^ b) a); lia.
  - destruct (if 0 <=? _ then _ else _); lia.
Qed.

Lemma round_double_nonneg q : (0 <= q)%Q → (0 <= round_double q)%Q.
Proof.
  destruct q as [n d]. intros Hn. unfold Qle in Hn; simpl in Hn.
  unfold round_double; cbn [Qnum Qden].
  destruct (Z.eqb_spec (Z.abs n) 0) as [|Hne]; [done|].
  destruct (Z.ltb_spec n 0) as [|_]; [lia|].
  rewrite Qred_correct. unfold round_to_ulp.
  set (s := Z.min _ _). clearbody s.
  destruct (Z.leb_spec 0 s).
  - assert (0 <= 2 ^ s) as HP by (apply Z.pow_nonneg; lia).
    pose proof (round_half_even_nonneg (Z.abs n * 2 ^ s) (Z.pos d)
                  ltac:(nia) ltac:(lia)).
    unfold Qle; simpl. lia.
  - assert (0 < 2 ^ (- s)) as HP by (apply Z.pow_pos_nonneg; lia).
    pose proof (round_half_even_nonneg (Z.abs n) (Z.pos d * 2 ^ (- s))
                  ltac:(lia) ltac:(nia)).
    unfold Qle, inject_Z; cbn [Qnum Qden]. nia.
Qed.

(** The product of 400 and a number from 0 to the largest double below 1,
    rounded to a double, is below 400. *)
Lemma round_double_below_400 r :
  (0 <= r)%Q → (r <= below_one)%Q → (round_double (r * 400) < 400)%Q.
Proof.
  destruct r as [n d]. intros Hn Hq.
  assert (0 <= n) as Hn' by (unfold Qle in Hn; cbn [Qnum Qden] in Hn; lia).
  assert (n * 9007199254740992 <= 9007199254740991 * Z.pos d) as Hq' by exact Hq.
  clear Hn Hq. unfold round_double. cbn [Qmult Qnum Qden].
  destruct (Z.eqb_spec (Z.abs (n * 400)) 0) as [|Hne]; [done|].
  destruct (Z.ltb_spec (n * 400) 0) as [|_]; [lia|].
  rewrite Z.abs_eq by lia.
  assert (binade (n * 400) (Z.pos (d * 1)) < 9) as He.
  { apply binade_lt; lia. }
  set (s := Z.min (52 - binade (n * 400) (Z.pos (d * 1))) 1074).
  assert (44 <= s) as Hs by lia. clearbody s.
  unfold round_to_ulp. destruct (Z.leb_spec 0 s); [|lia].
  rewrite Qred_correct. unfold Qlt; cbn [Qnum Qden].
  assert (2 ^ 44 <= 2 ^ s) as HP by (apply Z.pow_le_mono_r; lia).
  set (P := 2 ^ s) in *. clearbody P.
  change (2 ^ 44) with 17592186044416 in HP.
  rewrite Z2Pos.id by lia.
  destruct (round_half_even_error (n * 400 * P) (Z.pos (d * 1)) ltac:(lia))
    as [Hup _].
  set (k := round_half_even (n * 400 * P) (Z.pos (d * 1))) in *. clearbody k.
  rewrite Pos.mul_1_r in Hup.
  nia.
Qed.

(** Below 1 the binade is negative, and the number is below the binade's
    upper end. *)
Lemma binade_upper_neg a d :
  0 < a → 0 < d → binade a d < 0 → a * 2 ^ (- binade a d - 1) < d.
Proof.
  intros Ha Hd. unfold binade.
  destruct (Z.log2_spec a Ha) as [_ Ha2]. destruct (Z.log2_spec d Hd) as [Hd2 _].
  pose proof (Z.log2_nonneg a) as Hla. pose proof (Z.log2_nonneg d) as Hld.
  set (e := Z.log2 a - Z.log2 d) in *.
  destruct (Z.leb_spec 0 e) as [He|He].
  - destruct (Z.leb_spec (d * 2 ^ e) a) as [|Hlt]; [lia|]. intros He'.
    assert (e = 0) as -> by lia. simpl in *. lia.
  - destruct (Z.leb_spec d (a * 2 ^ (- e))) as [|Hlt]; intros _.
    + replace (Z.succ (Z.log2 a)) with (Z.log2 a + 1) in Ha2 by lia.
      assert (2 ^ Z.log2 d = 2 ^ (Z.log2 a + 1) * 2 ^ (- e - 1)) as Hpow.
      { rewrite <- Z.pow_add_r by lia. f_equal. lia. }
      assert (0 < 2 ^ (- e - 1)) by (apply Z.pow_pos_nonneg; lia).
      nia.
    + replace (- (e - 1) - 1) with (- e) by lia. done.
Qed.

(** A double from 0 up to but not including 1 is at most [below_one]. *)
Lemma double_below_one r :
  is_double r → (0 <= r)%Q → (r < 1)%Q → (r <= below_one)%Q.
Proof.
  destruct r as [n d]. unfold is_double. intros Hdbl Hn Hlt.
  assert (0 <= n) as Hn' by (unfold Qle in Hn; cbn [Qnum Qden] in Hn; lia).
  assert (n < Z.pos d) as Hlt' by (unfold Qlt in Hlt; cbn [Qnum Qden] in Hlt; lia).
  assert (n * 9007199254740992 <= 9007199254740991 * Z.pos d → (n # d <= below_one)%Q)
    as Hgoal by (intros H; exact H).
  apply Hgoal. clear Hn Hlt Hgoal.
  unfold round_double in Hdbl. cbn [Qnum Qden] in Hdbl.
  destruct (Z.eqb_spec (Z.abs n) 0) as [|Hne]; [lia|].
  destruct (Z.ltb_spec n 0) as [|_]; [lia|].
  rewrite Z.abs_eq in Hdbl by lia.
  assert (0 < n) as Hpos by lia.
  assert (binade n (Z.pos d) < 0) as He by (apply binade_lt; lia).
  pose proof (binade_upper_neg n (Z.pos d) Hpos ltac:(lia) He) as Hup.
  set (e := binade n (Z.pos d)) in *. clearbody e.
  set (s := Z.min (52 - e) 1074) in *.
  assert (53 <= s) as Hs53 by lia.
  assert (s <= 52 - e) as Hse by lia. clearbody s.
  unfold round_to_ulp in Hdbl. destruct (Z.leb_spec 0 s); [|lia].
  rewrite Qred_correct in Hdbl. unfold Qeq in Hdbl; cbn [Qnum Qden] in Hdbl.
  assert (0 < 2 ^ s) as HP by (apply Z.pow_pos_nonneg; lia).
  rewrite Z2Pos.id in Hdbl by lia.
  set (k := round_half_even (n * 2 ^ s) (Z.pos d)) in *. clearbody k.
  assert (k < 2 ^ s) as Hk by nia.
  destruct (Z.eq_dec s 53) as [->|Hne53].
  - change (2 ^ 53) with 9007199254740992 in *. nia.
  - assert (2 ^ s = 2 ^ 54 * 2 ^ (s - 54)) as HP54.
    { rewrite <- Z.pow_add_r by lia. f_equal. lia. }
    assert (2 ^ (- e - 1) = 2 ^ (s - 53) * 2 ^ (52 - e - s)) as Hsplit.
    { rewrite <- Z.pow_add_r by lia. f_equal. lia. }
    assert (2 ^ s = 2 ^ 53 * 2 ^ (s - 53)) as HP53.
    { rewrite <- Z.pow_add_r by lia. f_equal. lia. }
    assert (0 < 2 ^ (s - 54)) by (apply Z.pow_pos_nonneg; lia).
    assert (0 < 2 ^ (s - 53)) by (apply Z.pow_pos_nonneg; lia).
    assert (0 < 2 ^ (52 - e - s)) by (apply Z.pow_pos_nonneg; lia).
    change (2 ^ 53) with 9007199254740992 in *.
    change (2 ^ 54) with 18014398509481984 in *.
    assert (n * 2 ^ (s - 53) < Z.pos d) as Hnd by nia.
    assert (k < 9007199254740992) as Hk53 by nia.
    nia.
Qed.

End Numbers.

(** ** The exported document (1Node.py) *)

Section ExportDocument.
Import Canvas.

Lemma set_config_dom nid key v cfg :
  dom (config_nodes (set_config nid key v cfg)) = dom (config_nodes cfg).
Proof. unfold set_config; simpl. apply dom_alter_L. Qed.

Lemma copy_if_present_dom key n cfg :
  dom (config_nodes (copy_if_present key n cfg)) = dom (config_nodes cfg).
Proof.
  unfold copy_if_present. destruct (node_props n !! key); [|done].
  apply set_config_dom.
Qed.

Lemma copy_if_present_flow key n cfg :
  flow (copy_if_present key n cfg) = flow cfg.
Proof. unfold copy_if_present. by destruct (node_props n !! key). Qed.

Lemma process_node_dom cfg n :
  dom (config_nodes (process_node cfg n)) = {[node_id n]} ∪ dom (config_nodes cfg).
Proof.
  unfold process_node. rewrite !copy_if_present_dom. simpl.
  apply dom_insert_L.
Qed.

Lemma process_node_flow cfg n : flow (process_node cfg n) = flow cfg.
Proof. unfold process_node. by rewrite !copy_if_present_flow. Qed.

Lemma process_nodes_dom ns : ∀ cfg,
  dom (config_nodes (foldl process_node cfg ns)) =
  list_to_set (node_id <$> ns) ∪ dom (config_nodes cfg).
Proof.
  induction ns as [|n ns IH]; intros cfg; simpl.
  - set_solver.
  - rewrite IH, process_node_dom. set_solver.
Qed.

Lemma process_nodes_flow ns : ∀ cfg,
  flow (foldl process_node cfg ns) = flow cfg.
Proof.
  induction ns as [|n ns IH]; intros cfg; simpl; [done|].
  by rewrite IH, process_node_flow.
Qed.

Lemma process_connections_nodes cs : ∀ cfg,
  config_nodes (foldl process_connection cfg cs) = config_nodes cfg.
Proof. induction cs as [|c cs IH]; intros cfg; simpl; [done|]. by rewrite IH. Qed.

Lemma process_connections_flow cs : ∀ cfg,
  flow (foldl process_connection cfg cs) =
  (flow cfg ++ ((λ c, FlowEntry (conn_from c) (conn_to c) "default") <$> cs))%list.
Proof.
  induction cs as [|c cs IH]; intros cfg; simpl.
  - by rewrite app_nil_r.
  - rewrite IH. simpl. by rewrite <- app_assoc.
Qed.

(** The keys of ["nodes"] are the ids of the canvas's nodes. *)
Lemma to_config_keys c nid :
  is_Some (config_nodes (to_config c) !! nid) ↔ nid ∈ node_id <$> nodes c.
Proof.
  unfold to_config. rewrite process_connections_nodes.
  rewrite <- elem_of_dom, process_nodes_dom. simpl.
  rewrite dom_empty_L. set_solver.
Qed.

(** ["flow"] has one entry per connection, in order. *)
Lemma to_config_flow c :
  flow (to_config c) =
  (λ k, FlowEntry (conn_from k) (conn_to k) "default") <$> connections c.
Proof.
  unfold to_config.
  by rewrite process_connections_flow, process_nodes_flow.
Qed.

(** A connection whose start no node has breaks the integrity of the
    document. *)
Lemma dangling_from_breaks_integrity c k :
  k ∈ connections c → conn_from k ∉ node_id <$> nodes c →
  ¬ referential_integrity (to_config c).
Proof.
  intros Hk Hfrom H.
  destruct (H (FlowEntry (conn_from k) (conn_to k) "default")) as [Hin _].
  - rewrite to_config_flow. apply list_elem_of_fmap. eauto.
  - simpl in Hin. by apply to_config_keys in Hin.
Qed.

(** C1, as stated, fails: the export copies the connections as they are,
    so the document built from [dangling_canvas] has a flow entry whose
    endpoints are not keys of ["nodes"]; and so has the document built from
    the canvas state of [stale_start_page], which the page's own handlers
    reach. *)
Lemma to_config_dangling_flow :
  ¬ referential_integrity (to_config dangling_canvas) ∧
  ¬ referential_integrity (to_config (canvasState stale_start_page)).
Proof.
  split.
  - apply (dangling_from_breaks_integrity _
             (Connection "missing" "also-missing" "conn_1")); simpl.
    + set_solver.
    + set_solver.
  - apply (dangling_from_breaks_integrity _
             (Connection "node_1000_aaaaaaaaa" "node_1002_bbbbbbbbb" "conn_1003")).
    + vm_compute. by left.
    + vm_compute. intros Hin. apply list_elem_of_singleton in Hin. discriminate.
Qed.

(** C1 (amended): the document satisfies referential integrity exactly
    when every connection of the canvas joins ids of nodes of the canvas;
    the export itself checks nothing. *)
Theorem to_config_referential_integrity c :
  referential_integrity (to_config c) ↔ endpoints_exist c.
Proof.
  unfold referential_integrity, endpoints_exist. split.
  - intros H k Hk.
    specialize (H (FlowEntry (conn_from k) (conn_to k) "default")).
    rewrite to_config_flow, !to_config_keys in H. simpl in H.
    apply H. apply list_elem_of_fmap. eauto.
  - intros H e He. rewrite to_config_flow in He.
    apply list_elem_of_fmap in He as (k & -> & Hk). simpl.
    rewrite !to_config_keys. auto.
Qed.

(** C5: building the document reads the session and writes nothing, and
    the document depends on [canvas_data] alone: two sessions with the
    same canvas give the same document, building it leaves the session
    as it was, building it again gives the same document, and the whole
    export section (whatever is clicked) leaves the canvas untouched. *)
Theorem to_config_pure w s1 s2 :
  canvas_data s1 = canvas_data s2 →
  fst (generate_agent_config s1) = fst (generate_agent_config s2) ∧
  snd (generate_agent_config s1) = s1 ∧
  generate_agent_config (snd (generate_agent_config s1)) =
    generate_agent_config s1 ∧
  canvas_data (snd (json_export_section w s1)) = canvas_data s1.
Proof.
  intros Hsame. unfold generate_agent_config, json_export_section.
  unfold bind, gets, ret, when, modify, rerun; simpl.
  rewrite Hsame. repeat split.
  destruct (show_json s1); simpl; [|done].
  by destruct (hide_json_clicked w).
Qed.

Lemma to_config_pure_witness :
  fst (generate_agent_config initial_session) =
    fst (generate_agent_config (set_show_json true initial_session)) ∧
  snd (generate_agent_config initial_session) = initial_session ∧
  generate_agent_config (snd (generate_agent_config initial_session)) =
    generate_agent_config initial_session ∧
  canvas_data (snd (json_export_section idle initial_session)) =
    canvas_data initial_session.
Proof.
  apply (to_config_pure idle initial_session
           (set_show_json true initial_session)).
  reflexivity.
Defined.

End ExportDocument.

(** ** Clearing the graph *)

(** C8: "Clear Canvas" (1Node.py) ends the run with a rerun, never with an
    exception, and leaves a canvas with no node and no connection, from which
    the export builds the document with the two static fields, an empty
    ["nodes"] mapping and an empty ["flow"] list; "Clear" (Node.py) likewise
    cannot fail and makes the current graph [AgentFlow([], [], {})]. *)
Theorem clear_empties_graph w s r :
  Canvas.clear_canvas_clicked w = true →
  fst (Canvas.clear_canvas w s) = Rerun ∧
  Canvas.canvas_data (snd (Canvas.clear_canvas w s)) = Canvas.CanvasData [] [] ∧
  fst (Canvas.generate_agent_config (snd (Canvas.clear_canvas w s))) =
    Done (Canvas.AgentConfig "custom_visual_agent" "2024-01-01T00:00:00Z" ∅ []) ∧
  fst (Builder.clear r) = Rerun ∧
  Builder.current_flow (Builder.session_state (snd (Builder.clear r))) =
    Builder.mkAgentFlow [] [] ∅.
Proof.
  intros Hclick. unfold Canvas.clear_canvas. rewrite Hclick. simpl.
  repeat split.
  unfold Builder.current_flow, Builder.deref; simpl.
  by rewrite lookup_insert_eq.
Qed.

Lemma clear_empties_graph_witness :
  fst (Canvas.clear_canvas click_clear_canvas
         (Canvas.Session sample_canvas None true)) = Rerun ∧
  Canvas.canvas_data
    (snd (Canvas.clear_canvas click_clear_canvas
            (Canvas.Session sample_canvas None true))) = Canvas.CanvasData [] [].
Proof.
  pose proof (clear_empties_graph click_clear_canvas
                (Canvas.Session sample_canvas None true)
                (Builder.start Builder.initial_session) eq_refl) as H.
  split; apply H.
Defined.

(** ** The temperature of a node (1Node.py) *)

Section Temperature.
Import Canvas.




Lemma copy_if_present_entry key n cfg e :
  config_nodes cfg !! node_id n = Some e →
  config_nodes (copy_if_present key n cfg) !! node_id n =
    Some (NodeEntry (entry_type e) (entry_name e) (entry_position e)
                    (copy_key key n (entry_config e))).
Proof.
  intros He. unfold copy_if_present, copy_key.
  destruct (node_props n !! key).
  - unfold set_config; simpl. by rewrite lookup_alter_eq, He.
  - rewrite He. by destruct e.
Qed.

Lemma process_node_entry cfg n :
  config_nodes (process_node cfg n) !! node_id n = Some (entry_of n).
Proof.
  unfold process_node.
  set (entry := NodeEntry _ _ _ ∅).
  set (cfg0 := AgentConfig _ _ (<[node_id n := entry]> _) _).
  assert (config_nodes cfg0 !! node_id n = Some entry) as H0
    by apply lookup_insert_eq.
  pose proof (copy_if_present_entry "model" n _ _ H0) as H1.
  pose proof (copy_if_present_entry "temperature" n _ _ H1) as H2.
  exact (copy_if_present_entry "tool_type" n _ _ H2).
Qed.


Lemma copy_if_present_other key n cfg nid :
  nid ≠ node_id n →
  config_nodes (copy_if_present key n cfg) !! nid = config_nodes cfg !! nid.
Proof.
  intros Hne. unfold copy_if_present. destruct (node_props n !! key); [|done].
  unfold set_config; simpl. by rewrite lookup_alter_ne.
Qed.

Lemma process_node_other cfg n nid :
  nid ≠ node_id n →
  config_nodes (process_node cfg n) !! nid = config_nodes cfg !! nid.
Proof.
  intros Hne. unfold process_node.
  rewrite !copy_if_present_other by done. simpl. by rewrite lookup_insert_ne.
Qed.









(** The editor itself has no bound on the value: given a value outside the
    slider's range it would store it as it is. *)
Example editor_does_not_clamp :
  edit_node (Widgets false false false "m" "gpt-4" (3 # 2) "web_search" "{}"
                     "conversation_buffer" "")
            (Node "node_2_b" "LLM" 200 10 ∅)
  = Node "node_2_b" "LLM" 200 10
         (<["temperature" := VNum (3 # 2)]>
            (<["model" := VStr "gpt-4"]> (<["name" := VStr "m"]> ∅))).
Proof. reflexivity. Qed.



End Temperature.

(** ** The demo handlers and the registry of saved agents (Node.py) *)

Section Handlers.
Import Builder.

(** [add_demo_connection] evaluated: with two nodes or more the lookup of
    [id] on the list raises before the connection is built. *)
Lemma add_demo_connection_eval conn_id r :
  add_demo_connection conn_id r =
  if (2 <=? length (nodes (current_flow (session_state r))))%nat
  then (Raised (AttributeError "list" "id"), r)
  else (Done tt, Run (session_state r)
                     (shown r ++ [warning "Add at least 2 nodes first."])).
Proof.
  unfold add_demo_connection, bind, get.
  by destruct (2 <=? length (nodes (current_flow (session_state r))))%nat.
Qed.

(** C10: with at least two nodes "Add Demo Connection" raises
    [AttributeError] on [nodes.id] and leaves the run's state as it was;
    in every state the session after it, and so the connections of every
    graph, are what they were. *)
Theorem add_demo_connection_never_adds conn_id r :
  ((2 ≤ length (nodes (current_flow (session_state r))))%nat →
   add_demo_connection conn_id r = (Raised (AttributeError "list" "id"), r)) ∧
  session_state (snd (add_demo_connection conn_id r)) = session_state r ∧
  connections (current_flow (session_state (snd (add_demo_connection conn_id r))))
    = connections (current_flow (session_state r)).
Proof.
  rewrite add_demo_connection_eval.
  destruct (2 <=? length (nodes (current_flow (session_state r))))%nat eqn:Hlen.
  - done.
  - apply Nat.leb_gt in Hlen. split; [lia|done].
Qed.

Lemma add_demo_connection_never_adds_witness :
  add_demo_connection "5e6f7a8b-0000-4000-8000-000000000003" (start two_nodes)
    = (Raised (AttributeError "list" "id"), start two_nodes).
Proof.
  apply (add_demo_connection_never_adds
           "5e6f7a8b-0000-4000-8000-000000000003" (start two_nodes)).
  vm_compute. lia.
Defined.

(** C4, as stated, fails: on the empty graph "Add Demo Connection" raises
    nothing (it shows a warning), so it does not fail with an error named
    UnknownNode; and [createConnection], given two groups whose ids no node
    has, does not fail either and appends the connection. *)
Lemma add_connection_on_empty_graph_no_error :
  fst (add_demo_connection "c" (start initial_session)) = Done tt ∧
  fst (Canvas.createConnection (Canvas.Group 0 "missing" "LLM" 0 0)
         (Canvas.Group 1 "also-missing" "LLM" 0 0) 1
         (Canvas.load_page Canvas.empty_canvas)) = Done tt ∧
  Canvas.connections
    (Canvas.canvasState
       (snd (Canvas.createConnection (Canvas.Group 0 "missing" "LLM" 0 0)
               (Canvas.Group 1 "also-missing" "LLM" 0 0) 1
               (Canvas.load_page Canvas.empty_canvas))))
    = [Canvas.Connection "missing" "also-missing" "conn_1"].
Proof. repeat split. Qed.

(** C4 (amended): a run of Node.py that refuses what was asked, by raising
    or by a warning, leaves the session as it was.  ("Add Demo Connection"
    refuses always; "Load Agent" raises for a name that was not saved.) *)
Theorem rejected_run_leaves_graph_unchanged c s :
  rejected (script_run c (start s)) → after c s = s.
Proof.
  unfold rejected, after. destruct c; simpl.
  - intros [|[msg Hin]]; [done|]. simpl in Hin. set_solver.
  - intros [|[msg Hin]]; [done|]. simpl in Hin. set_solver.
  - unfold load, bind, get, start; simpl.
    case_bool_decide; [by destruct s|].
    destruct (String.eqb selected_agent ""); [by destruct s|].
    destruct (saved_agents s !! selected_agent); simpl.
    + intros [|[msg Hin]]; [done|]. simpl in Hin. set_solver.
    + by destruct s.
  - intros [|[msg Hin]]; [done|]. simpl in Hin. set_solver.
  - intros [|[msg Hin]]; [done|]. simpl in Hin. set_solver.
  - intros _. rewrite add_demo_connection_eval. by case_match.
Qed.

Lemma rejected_run_leaves_graph_unchanged_witness :
  after (AddDemoConnection "c") initial_session = initial_session.
Proof.
  apply (rejected_run_leaves_graph_unchanged (AddDemoConnection "c")
           initial_session).
  right. exists "Add at least 2 nodes first.". simpl. set_solver.
Defined.

(** The handlers' effect on the session. *)
Lemma after_save name s :
  after (Save name) s =
  set_saved_agents (<[name := agent_flow s]> (saved_agents s)) s.
Proof. reflexivity. Qed.

Lemma after_clear s : after Clear s = new_agent_flow s.
Proof. reflexivity. Qed.

Lemma after_add_demo_node new_id rx ry s :
  after (AddDemoNode new_id rx ry) s =
  log_append ("Added demo node: " +:+ node_name (demo_node new_id rx ry))
    (mutate_flow (nodes_append (demo_node new_id rx ry)) s).
Proof. reflexivity. Qed.

Lemma after_load name l s :
  name ≠ "" → saved_agents s !! name = Some l →
  after (Load name) s = set_agent_flow l s.
Proof.
  intros Hname Hl. unfold after, script_run, load, bind, get, start; simpl.
  case_bool_decide as He; [by rewrite He in Hl|].
  apply String.eqb_neq in Hname. by rewrite Hname, Hl.
Qed.

(** A change in place of the current graph. *)
Lemma current_flow_mutate f s :
  wf s → current_flow (mutate_flow f s) = f (current_flow s).
Proof.
  intros [[fl Hfl] _]. unfold current_flow, deref, mutate_flow; simpl.
  by rewrite lookup_alter_eq, Hfl.
Qed.

(** The address of a new object is not the address of an old one. *)
Lemma deref_new_agent_flow s l :
  is_Some (objects s !! l) → deref (new_agent_flow s) l = deref s l.
Proof.
  intros Hl. unfold deref, new_agent_flow; simpl.
  rewrite lookup_insert_ne; [done|].
  intros <-. apply elem_of_dom in Hl. by apply is_fresh in Hl.
Qed.

Lemma current_flow_new_agent_flow s : current_flow (new_agent_flow s) = empty_flow.
Proof.
  unfold current_flow, deref, new_agent_flow; simpl. by rewrite lookup_insert_eq.
Qed.

(** The handlers keep every reference pointing to an object. *)
Lemma wf_after c s : wf s → wf (after c s).
Proof.
  intros [Hcur Hsaved]. destruct c.
  - rewrite after_clear. unfold new_agent_flow. split; simpl.
    + rewrite lookup_insert_eq. eauto.
    + intros name l Hl. apply Hsaved in Hl.
      rewrite lookup_insert_ne; [done|].
      intros <-. apply elem_of_dom in Hl. by apply is_fresh in Hl.
  - rewrite after_save. split; simpl; [done|].
    intros name l. rewrite lookup_insert. case_decide; [|by apply Hsaved].
    by intros [= <-].
  - unfold after, script_run, load, bind, get, start; simpl.
    case_bool_decide; [done|]. destruct (String.eqb selected_agent ""); [done|].
    destruct (saved_agents s !! selected_agent) as [l|] eqn:Hl; simpl; [|done].
    split; simpl; [by eapply Hsaved|done].
  - done.
  - rewrite after_add_demo_node. unfold mutate_flow.
    split; simpl.
    + rewrite lookup_alter_eq. by apply fmap_is_Some.
    + intros name l Hl. apply Hsaved in Hl. rewrite lookup_alter.
      case_decide; [subst; by apply fmap_is_Some|done].
  - unfold after. simpl. rewrite add_demo_connection_eval. by case_match.
Qed.

Lemma wf_initial_session : wf initial_session.
Proof.
  split; simpl.
  - unfold initial_session; simpl. rewrite lookup_singleton_eq. eauto.
  - intros name l. by rewrite lookup_empty.
Defined.

(** The graph stored under a name, after each handler. *)
Lemma saved_flow_after_save name s :
  saved_flow (after (Save name) s) name = Some (current_flow s).
Proof.
  rewrite after_save. unfold saved_flow; simpl. by rewrite lookup_insert_eq.
Qed.

Lemma saved_flow_after_add_demo_node name new_id rx ry s :
  wf s → saved_agents s !! name = Some (agent_flow s) →
  saved_flow (after (AddDemoNode new_id rx ry) s) name =
    Some (nodes_append (demo_node new_id rx ry) (current_flow s)).
Proof.
  intros Hwf Hname. rewrite after_add_demo_node.
  unfold saved_flow; simpl. rewrite Hname; simpl. f_equal.
  by apply (current_flow_mutate _ s).
Qed.

Lemma saved_flow_after_clear name s :
  wf s → saved_flow (after Clear s) name = saved_flow s name.
Proof.
  intros [_ Hsaved]. rewrite after_clear. unfold saved_flow.
  change (saved_agents (new_agent_flow s)) with (saved_agents s).
  destruct (saved_agents s !! name) as [l|] eqn:Hl; simpl; [|done].
  f_equal. apply deref_new_agent_flow. by eapply Hsaved.
Qed.

(** C7, as stated, fails: "Save" stores the graph object itself, so a node
    added to the current graph after the save is in the graph stored under
    the name as well. *)
Lemma saved_graph_follows_later_mutation :
  saved_flow (after (AddDemoNode "1a2b3c4d-0000-4000-8000-000000000001" (1 # 2) (1 # 4))
                (after (Save "MyAgent") initial_session)) "MyAgent"
  ≠ saved_flow (after (Save "MyAgent") initial_session) "MyAgent".
Proof. vm_compute. discriminate. Qed.

(** C7 (amended): "Save" stores a reference to the current graph object
    under the name, not a copy.  A change made in place to the current graph
    afterwards ("Add Demo Node") shows in the graph stored under the name;
    replacing the current graph ("Clear") leaves the stored graph as it was
    saved; "Load Agent" with that (non-empty) name makes the stored object
    the current graph again; and a second save under the same name replaces
    the first. *)
Theorem save_stores_reference name s new_id rx ry :
  wf s → name ≠ "" →
  let s1 := after (Save name) s in
  let cleared := after Clear s1 in
  saved_agents s1 !! name = Some (agent_flow s) ∧
  saved_flow s1 name = Some (current_flow s) ∧
  saved_flow (after (AddDemoNode new_id rx ry) s1) name =
    Some (nodes_append (demo_node new_id rx ry) (current_flow s)) ∧
  saved_flow cleared name = Some (current_flow s) ∧
  current_flow cleared = empty_flow ∧
  agent_flow (after (Load name) cleared) = agent_flow s ∧
  current_flow (after (Load name) cleared) = current_flow s ∧
  saved_flow (after (Save name) cleared) name = Some empty_flow.
Proof.
  intros Hwf Hname s1 cleared.
  assert (wf s1) as Hwf1 by by apply wf_after.
  assert (saved_agents s1 !! name = Some (agent_flow s)) as Hs1.
  { subst s1. rewrite after_save. simpl. apply lookup_insert_eq. }
  assert (saved_flow cleared name = Some (current_flow s)) as Hc.
  { subst cleared. rewrite saved_flow_after_clear by done.
    apply saved_flow_after_save. }
  assert (saved_agents cleared !! name = Some (agent_flow s)) as Hs3 by done.
  split; [done|].
  split; [apply saved_flow_after_save|].
  split.
  { change (current_flow s) with (current_flow s1).
    apply saved_flow_after_add_demo_node; [done|exact Hs1]. }
  split; [done|].
  split; [apply current_flow_new_agent_flow|].
  rewrite (after_load name (agent_flow s) cleared Hname Hs3).
  split; [done|]. split.
  - unfold saved_flow in Hc. rewrite Hs3 in Hc. by injection Hc.
  - rewrite saved_flow_after_save. f_equal. apply current_flow_new_agent_flow.
Qed.

Lemma save_stores_reference_witness :
  saved_agents (after (Save "MyAgent") initial_session) !! "MyAgent" = Some 0%nat ∧
  saved_flow (after (AddDemoNode "1a2b3c4d-0000-4000-8000-000000000001" (1 # 2) (1 # 4))
                (after (Save "MyAgent") initial_session)) "MyAgent" =
    Some (nodes_append
            (demo_node "1a2b3c4d-0000-4000-8000-000000000001" (1 # 2) (1 # 4))
            empty_flow).
Proof.
  pose proof (save_stores_reference "MyAgent" initial_session
                "1a2b3c4d-0000-4000-8000-000000000001" (1 # 2) (1 # 4)
                wf_initial_session ltac:(discriminate)) as H.
  split; apply H.
Defined.

End Handlers.

(** ** Ids and default names *)

Section Strings.

Lemma app_nil (t : string) : "" +:+ t = t.
Proof. reflexivity. Qed.

Lemma app_cons c (s t : string) : String c s +:+ t = String c (s +:+ t).
Proof. reflexivity. Qed.

Lemma substring_all s : substring 0 (String.length s) s = s.
Proof. induction s as [|c s IH]; simpl; [done|]. by rewrite IH. Qed.

Lemma substring_app_r pre suf :
  substring (String.length pre) (String.length suf) (pre +:+ suf) = suf.
Proof. induction pre as [|c pre IH]; simpl; [apply substring_all|done]. Qed.

Lemma string_length_app (s1 s2 : string) :
  String.length (s1 +:+ s2) = (String.length s1 + String.length s2)%nat.
Proof. induction s1 as [|c s1 IH]; simpl; [done|]. by rewrite IH. Qed.

(** A suffix of [s] is what [slice] cuts at its length. *)
Lemma is_suffix_slice suf s :
  is_suffix suf s → slice_last (String.length suf) s = suf.
Proof.
  intros [pre ->]. unfold slice_last. rewrite string_length_app.
  replace (String.length pre + String.length suf - String.length suf)%nat
    with (String.length pre) by lia.
  apply substring_app_r.
Qed.

Lemma substring_whole m : ∀ s,
  (String.length s ≤ m)%nat → substring 0 m s = s.
Proof.
  induction m as [|m IH]; intros [|c s] Hlen; simpl in *; try done; [lia|].
  f_equal. apply IH. lia.
Qed.

Lemma substring_tail k m : ∀ s,
  (String.length s ≤ k + m)%nat → is_suffix (substring k m s) s.
Proof.
  induction k as [|k IH]; intros s Hlen.
  - exists "". simpl. by rewrite substring_whole.
  - destruct s as [|c s]; simpl.
    + by exists "".
    + destruct (IH s) as [pre Hpre]; [simpl in Hlen; lia|].
      exists (String c pre). rewrite app_cons. by f_equal.
Qed.

(** [s.slice(-n)] is a suffix of [s]. *)
Lemma slice_last_suffix n s : is_suffix (slice_last n s) s.
Proof. unfold slice_last. apply substring_tail. lia. Qed.

Lemma pretty_N_char_not_underscore x : pretty_N_char x ≠ underscore.
Proof. unfold pretty_N_char. by repeat case_match. Qed.

Lemma pretty_N_go_no_underscore x : ∀ s,
  underscore ∉ chars s → underscore ∉ chars (pretty_N_go x s).
Proof.
  induction (N.lt_wf_0 x) as [x _ IH]; intros s Hs.
  assert (x = 0 ∨ 0 < x)%N as [->|Hx] by lia.
  - by rewrite pretty_N_go_0.
  - rewrite pretty_N_go_step by done. apply IH.
    + by apply N.div_lt.
    + simpl. apply not_elem_of_cons. split; [|done].
      intros Heq. by apply (pretty_N_char_not_underscore (x `mod` 10)%N).
Qed.

(** The decimal text of a number has no underscore. *)
Lemma pretty_N_no_underscore (x : N) : underscore ∉ chars (pretty x).
Proof.
  unfold pretty, pretty_N. case_decide.
  - simpl. set_solver.
  - apply pretty_N_go_no_underscore. simpl. set_solver.
Qed.

(** Two texts cut at their first underscore. *)
Lemma app_underscore_inj a a' r r' :
  underscore ∉ chars a → underscore ∉ chars a' →
  a +:+ String underscore r = a' +:+ String underscore r' → a = a' ∧ r = r'.
Proof.
  revert a'. induction a as [|c a IH]; intros [|c' a'] Ha Ha';
    rewrite ?app_nil, ?app_cons.
  - by intros [= ->].
  - intros [= <- _]. simpl in Ha'. set_solver.
  - intros [= -> _]. simpl in Ha. set_solver.
  - intros [= -> Heq]. simpl in Ha, Ha'.
    apply not_elem_of_cons in Ha as [_ Ha].
    apply not_elem_of_cons in Ha' as [_ Ha'].
    destruct (IH a' Ha Ha' Heq) as [-> ->]. done.
Qed.

End Strings.

Section Ids.

(** [createNode] on a type that has a template. *)
Lemma createNode_nodes type x y now rnd p :
  is_Some (Canvas.componentTemplates !! type) →
  Canvas.nodes (Canvas.canvasState (snd (Canvas.createNode type x y now rnd p)))
  = Canvas.nodes (Canvas.canvasState p) ++ [created_node type x y now rnd].
Proof.
  intros [t Ht]. unfold Canvas.createNode, Canvas.template_of. by rewrite Ht.
Qed.

(** [createNode] on a type the lookup finds nothing for: nothing is added. *)
Lemma createNode_unknown_type type x y now rnd p :
  Canvas.template_of type = None →
  Canvas.createNode type x y now rnd p =
    (Raised (TypeError "template is undefined"), p).
Proof. intros Ht. unfold Canvas.createNode. by rewrite Ht. Qed.

(** "Add Demo Node" appends its node to the current graph. *)
Lemma add_demo_node_nodes new_id rx ry s :
  Builder.wf s →
  Builder.nodes (Builder.current_flow (Builder.after (Builder.AddDemoNode new_id rx ry) s))
  = Builder.nodes (Builder.current_flow s) ++ [Builder.demo_node new_id rx ry].
Proof.
  intros Hwf. rewrite after_add_demo_node.
  change (Builder.current_flow (Builder.log_append ?e ?s'))
    with (Builder.current_flow s').
  by rewrite current_flow_mutate.
Qed.

(** C9, as stated, fails for Node.py: the name of a demo node ends with the
    first four characters of its id, which are not its trailing ones. *)
Lemma demo_node_name_is_not_id_suffix :
  Builder.nodes (Builder.current_flow
                   (Builder.after (Builder.AddDemoNode sample_uuid (1 # 2) (1 # 4))
                      Builder.initial_session))
    = [Builder.demo_node sample_uuid (1 # 2) (1 # 4)] ∧
  ¬ default_name "Input" sample_uuid
      (Builder.node_name (Builder.demo_node sample_uuid (1 # 2) (1 # 4))).
Proof.
  split; [reflexivity|].
  intros (suf & Hsuf & Hname).
  assert (suf = "1a2b") as -> by (vm_compute in Hname; congruence).
  apply is_suffix_slice in Hsuf. vm_compute in Hsuf. discriminate.
Qed.

(** C9 (amended): for a type that has a template, [createNode] names the
    node by its type, an underscore and the last four characters of its id;
    "Add Demo Node" names its node ["Input_"] followed by the first four
    characters of its id. *)
Theorem default_node_names type x y now rnd p new_id rx ry s :
  is_Some (Canvas.componentTemplates !! type) →
  Builder.wf s →
  (∃ n, last (Canvas.nodes (Canvas.canvasState
                (snd (Canvas.createNode type x y now rnd p)))) = Some n ∧
        Canvas.node_id n = Canvas.new_node_id now rnd ∧
        Canvas.node_props n !! "name" =
          Some (VStr (type +:+ "_" +:+ slice_last 4 (Canvas.node_id n))) ∧
        default_name type (Canvas.node_id n)
          (type +:+ "_" +:+ slice_last 4 (Canvas.node_id n))) ∧
  (∃ n, last (Builder.nodes (Builder.current_flow
                (Builder.after (Builder.AddDemoNode new_id rx ry) s))) = Some n ∧
        Builder.node_id n = new_id ∧
        Builder.node_name n = "Input_" +:+ str_prefix 4 new_id).
Proof.
  intros Htype Hwf. split.
  - exists (created_node type x y now rnd).
    rewrite createNode_nodes by done. rewrite last_snoc.
    split; [done|]. split; [done|]. split.
    + simpl. apply lookup_singleton_eq.
    + exists (slice_last 4 (Canvas.new_node_id now rnd)).
      split; [apply slice_last_suffix|done].
  - exists (Builder.demo_node new_id rx ry).
    rewrite add_demo_node_nodes by done. by rewrite last_snoc.
Qed.

Lemma default_node_names_witness :
  ∃ n, last (Canvas.nodes (Canvas.canvasState
               (snd (Canvas.createNode "LLM" 200 10 1700000000000 "0.4fzyo82mvyr"
                       (Canvas.load_page Canvas.empty_canvas))))) = Some n ∧
       Canvas.node_id n = "node_1700000000000_4fzyo82mv" ∧
       Canvas.node_props n !! "name" = Some (VStr "LLM_82mv").
Proof.
  destruct (default_node_names "LLM" 200 10 1700000000000 "0.4fzyo82mvyr"
              (Canvas.load_page Canvas.empty_canvas) sample_uuid (1 # 2) (1 # 4)
              Builder.initial_session)
    as [(n & Hlast & Hid & Hname & _) _].
  - vm_compute. eauto.
  - apply wf_initial_session.
  - exists n. split; [exact Hlast|]. split.
    + rewrite Hid. reflexivity.
    + rewrite Hname, Hid. reflexivity.
Defined.

(** The ids of the added nodes are the values drawn, in order. *)
Lemma add_demo_nodes_ids draws : ∀ s,
  Builder.wf s →
  node_ids (add_demo_nodes draws s) = node_ids s ++ draws.*1.*1.
Proof.
  induction draws as [|[[new_id rx] ry] rest IH]; intros s Hwf; simpl.
  - by rewrite app_nil_r.
  - rewrite IH by by apply wf_after.
    unfold node_ids at 1. rewrite add_demo_node_nodes by done.
    rewrite fmap_app. simpl. by rewrite <- app_assoc.
Qed.

(** The id [createNode] makes is determined by the clock and by nine
    characters of the random text, and determines them. *)
Lemma new_node_id_inj now1 rnd1 now2 rnd2 :
  Canvas.new_node_id now1 rnd1 = Canvas.new_node_id now2 rnd2 ↔
  now1 = now2 ∧ substr 2 9 rnd1 = substr 2 9 rnd2.
Proof.
  unfold Canvas.new_node_id. split.
  - intros Heq. rewrite !app_cons, !app_nil in Heq.
    injection Heq as Heq.
    apply app_underscore_inj in Heq as [Hnow Hrnd];
      try apply pretty_N_no_underscore.
    split; [by apply (inj pretty)|done].
  - by intros [-> ->].
Qed.

(** C6, as stated, fails: the handler takes the value of [uuid.uuid4()] as
    the id without comparing it with the ids in the graph, so two clicks
    that draw the same value give two nodes with one id. *)
Lemma same_draw_gives_same_id :
  ¬ NoDup (node_ids (add_demo_nodes [(sample_uuid, 1 # 2, 1 # 4);
                                     (sample_uuid, 1 # 4, 1 # 2)]
                       Builder.initial_session)).
Proof.
  rewrite add_demo_nodes_ids by apply wf_initial_session. simpl.
  intros Hnd. apply NoDup_cons in Hnd as [Hnot _]. apply Hnot. by left.
Qed.

(** C6 (amended): after a sequence of "Add Demo Node" clicks the ids of the
    graph are its earlier ids followed by the values drawn from
    [uuid.uuid4()], so they are pairwise distinct exactly when those are;
    the id [createNode] appends is built from the clock and nine random
    characters, and two calls make the same id exactly when both agree. *)
Theorem node_ids_distinct_iff_draws_distinct draws s type x y now rnd p :
  Builder.wf s →
  is_Some (Canvas.componentTemplates !! type) →
  (NoDup (node_ids (add_demo_nodes draws s)) ↔
   NoDup (node_ids s ++ draws.*1.*1)) ∧
  Canvas.node_id <$> Canvas.nodes (Canvas.canvasState
                       (snd (Canvas.createNode type x y now rnd p)))
    = (Canvas.node_id <$> Canvas.nodes (Canvas.canvasState p))
      ++ [Canvas.new_node_id now rnd] ∧
  ∀ now' rnd', Canvas.new_node_id now rnd = Canvas.new_node_id now' rnd' ↔
               now = now' ∧ substr 2 9 rnd = substr 2 9 rnd'.
Proof.
  intros Hwf Htype. split; [|split].
  - by rewrite add_demo_nodes_ids.
  - rewrite createNode_nodes by done. by rewrite fmap_app.
  - intros now' rnd'. apply new_node_id_inj.
Qed.

Lemma node_ids_distinct_iff_draws_distinct_witness :
  NoDup (node_ids (add_demo_nodes
                     [(sample_uuid, 1 # 2, 1 # 4);
                      ("9f1c2d3e-0000-4000-8000-000000000002", 1 # 4, 1 # 2)]
                     Builder.initial_session)).
Proof.
  apply (node_ids_distinct_iff_draws_distinct
           [(sample_uuid, 1 # 2, 1 # 4);
            ("9f1c2d3e-0000-4000-8000-000000000002", 1 # 4, 1 # 2)]
           Builder.initial_session "LLM" 200 10 1700000000000 "0.4fzyo82mvyr"
           (Canvas.load_page Canvas.empty_canvas)).
  - apply wf_initial_session.
  - vm_compute. eauto.
  - simpl. repeat constructor; set_solver.
Defined.

End Ids.

(** ** Connections made on the canvas (1Node.py) *)

Section Connections.
Import Canvas.

(** C3, as stated, fails: [createConnection] neither looks the ids up nor
    compares them; given the same group twice, with an id that no node has,
    it does not fail and appends the connection. *)
Lemma createConnection_accepts_unknown_self_loop :
  nodes (canvasState (load_page empty_canvas)) = [] ∧
  failed (fst (createConnection ghost ghost 1 (load_page empty_canvas))) = false ∧
  connections (canvasState (snd (createConnection ghost ghost 1
                                   (load_page empty_canvas))))
    = [Connection "ghost" "ghost" "conn_1"].
Proof. repeat split. Qed.

(** As long as no ['clear_canvas'] message arrives, the handlers keep the
    ends of every connection among the ids of the nodes. *)
Lemma handle_keeps_page_ok e p :
  e ≠ ClearCanvasMessage → page_ok p → page_ok (snd (handle e p)).
Proof.
  intros Hne Hok. pose proof Hok as (Hobj & Hstart & Hends).
  destruct e as [x y answer now rnd|key|i now|]; [| | |done]; simpl.
  - unfold on_dblclick, bind, get.
    destruct (connectionMode p); [done|].
    destruct answer as [[|c type]|]; [done| |done].
    case_bool_decide as Htype; [|done].
    unfold createNode. destruct Htype as [t Ht]. rewrite Ht.
    unfold page_ok, endpoints_exist; simpl. split; [|split].
    + intros g Hg. rewrite fmap_app. apply elem_of_app.
      apply elem_of_app in Hg as [Hg|Hg]; [left; by apply Hobj|right].
      apply list_elem_of_singleton in Hg as ->. simpl. by left.
    + intros g Hg. rewrite fmap_app. apply elem_of_app. left. by apply Hstart.
    + intros k Hk. rewrite fmap_app, !elem_of_app.
      destruct (Hends k Hk). auto.
  - unfold on_keydown, bind, get, when.
    by destruct (String.eqb key "c" || String.eqb key "C").
  - unfold click_object, bind, get.
    destruct (canvas_objects p !! i) as [g|] eqn:Hg; [|done].
    assert (nodeId g ∈ node_id <$> nodes (canvasState p)) as Hgid.
    { apply Hobj. apply list_elem_of_lookup. eauto. }
    unfold on_mousedown, bind, get.
    destruct (connectionMode p); [|done].
    destruct (connectionStart p) as [start|] eqn:Hs.
    + case_bool_decide; [|done].
      unfold page_ok, endpoints_exist; simpl.
      split; [done|]. split; [done|].
      intros k Hk. apply elem_of_app in Hk as [Hk|Hk].
      * by apply Hends.
      * apply list_elem_of_singleton in Hk as ->. simpl. split; [|done].
        by apply Hstart.
    + unfold page_ok; simpl. split; [done|]. split; [|done]. by intros ? [= <-].
Qed.

Lemma page_after_ok events : ∀ p,
  ClearCanvasMessage ∉ events → page_ok p → page_ok (page_after events p).
Proof.
  induction events as [|e events IH]; intros p Hno Hok; simpl; [done|].
  apply not_elem_of_cons in Hno as [Hne Hno].
  apply IH; [done|]. by apply handle_keeps_page_ok.
Qed.

Lemma load_page_ok c : endpoints_exist c → page_ok (load_page c).
Proof.
  intros Hc. split; [|split]; simpl; [|done|done].
  intros g Hg. by apply elem_of_nil in Hg.
Qed.

(** A connection whose start no node has is reached on the page itself. *)
Lemma dangling_connection_reachable :
  canvasState stale_start_page =
    CanvasData
      [Node "node_1002_bbbbbbbbb" "LLM" 300 100 {[ "name" := VStr "LLM_bbbb" ]}]
      [Connection "node_1000_aaaaaaaaa" "node_1002_bbbbbbbbb" "conn_1003"] ∧
  ¬ endpoints_exist (canvasState stale_start_page).
Proof.
  assert (canvasState stale_start_page =
          CanvasData
            [Node "node_1002_bbbbbbbbb" "LLM" 300 100 {[ "name" := VStr "LLM_bbbb" ]}]
            [Connection "node_1000_aaaaaaaaa" "node_1002_bbbbbbbbb" "conn_1003"])
    as Hstate by (vm_compute; reflexivity).
  split; [done|]. rewrite Hstate. intros H.
  destruct (H (Connection "node_1000_aaaaaaaaa" "node_1002_bbbbbbbbb" "conn_1003"))
    as [Hfrom _]; simpl in *; [set_solver|].
  apply list_elem_of_singleton in Hfrom. discriminate.
Qed.

(** C3 (amended): [createConnection] never fails and validates nothing: for
    any two groups it appends the connection from the first one's id to the
    second one's and leaves the nodes as they are; a click on the group the
    connection starts from is ignored without an error; and the ids of two
    connections are equal exactly when they were made at the same clock
    value. *)
Theorem createConnection_validates_nothing startNode endNode now now' p :
  fst (createConnection startNode endNode now p) = Done tt ∧
  nodes (canvasState (snd (createConnection startNode endNode now p)))
    = nodes (canvasState p) ∧
  connections (canvasState (snd (createConnection startNode endNode now p)))
    = connections (canvasState p)
      ++ [Connection (nodeId startNode) (nodeId endNode) (new_conn_id now)] ∧
  on_mousedown startNode now (set_connection true (Some startNode) p)
    = (Done tt, set_connection true (Some startNode) p) ∧
  (new_conn_id now = new_conn_id now' ↔ now = now').
Proof.
  repeat split.
  - unfold on_mousedown, bind, get; simpl.
    case_bool_decide; [done|]. by destruct p.
  - unfold new_conn_id. rewrite !app_cons, !app_nil. intros [= Heq].
    by apply (inj pretty).
  - by intros ->.
Qed.

End Connections.

(** ** More on the exported document (1Node.py, lines 399-433) *)

Section ExportCoverage.
Import Canvas.

Lemma process_nodes_last ns nid : ∀ cfg,
  config_nodes (foldl process_node cfg ns) !! nid =
  match last (filter (λ n, node_id n = nid) ns) with
  | Some n => Some (entry_of n)
  | None => config_nodes cfg !! nid
  end.
Proof.
  induction ns as [|m ns IH]; intros cfg; simpl; [done|].
  rewrite IH. rewrite filter_cons. case_decide as Hid.
  - rewrite last_cons. destruct (last (filter _ ns)); [done|].
    subst nid. apply process_node_entry.
  - destruct (last (filter _ ns)); [done|]. by apply process_node_other.
Qed.

Lemma entry_of_config n k :
  entry_config (entry_of n) !! k =
  if bool_decide (k ∈ exported_keys) then node_props n !! k else None.
Proof.
  unfold exported_keys. simpl. unfold copy_key.
  case_bool_decide as Hk.
  - destruct (node_props n !! "model") eqn:Hm,
      (node_props n !! "temperature") eqn:Ht,
      (node_props n !! "tool_type") eqn:Hl;
      repeat (apply elem_of_cons in Hk as [->|Hk]; [by simplify_map_eq|]);
      by apply elem_of_nil in Hk.
  - assert (k ≠ "model" ∧ k ≠ "temperature" ∧ k ≠ "tool_type") as (?&?&?).
    { repeat split; intros ->; apply Hk; set_solver. }
    destruct (node_props n !! "model"), (node_props n !! "temperature"),
      (node_props n !! "tool_type"); by simplify_map_eq.
Qed.

(** X1: for every id, ["nodes"] holds the entry built from the last node of
    the canvas that carries the id (a later node overwrites an earlier one),
    and no entry when no node carries it. *)
Theorem export_entry_is_last_node c nid :
  config_nodes (to_config c) !! nid = entry_of <$> last (nodes_with_id nid c).
Proof.
  unfold to_config, nodes_with_id.
  rewrite process_connections_nodes, process_nodes_last.
  by destruct (last _).
Qed.

(** X2: every entry of ["nodes"] comes from a node of the canvas with that
    id: its type is the node's type in lower case (shown for a type of
    ASCII characters, whose letters [A] to [Z] are lowered and whose other
    characters stay), its name the node's name or else its type, its
    position the node's, and its ["config"] holds the node's [model],
    [temperature] and [tool_type] and nothing else ([parameters],
    [memory_type] and [routing_logic] are not exported). *)
Theorem export_entry_comes_from_node c nid e :
  config_nodes (to_config c) !! nid = Some e →
  ∃ n, n ∈ nodes c ∧ node_id n = nid ∧
       (ascii_only (node_type n) →
        entry_type e = lower (node_type n)) ∧
       entry_name e = default (VStr (node_type n)) (node_props n !! "name") ∧
       entry_position e = (node_x n, node_y n) ∧
       ∀ k, entry_config e !! k =
            if bool_decide (k ∈ exported_keys) then node_props n !! k else None.
Proof.
  unfold to_config. rewrite process_connections_nodes, process_nodes_last.
  destruct (last _) as [n|] eqn:Hlast; [|done].
  intros [= <-].
  apply last_Some_elem_of in Hlast. apply list_elem_of_filter in Hlast as [Hid Hn].
  exists n. repeat split; try done. intros k. apply entry_of_config.
Qed.

Lemma export_entry_comes_from_node_witness :
  ascii_only "LLM" ∧
  ∃ n, n ∈ nodes sample_canvas ∧ node_id n = "node_2_b" ∧
       (ascii_only (node_type n) →
        entry_type (entry_of (Node "node_2_b" "LLM" 200 10 {[ "name" := VStr "LLM_2_b" ]}))
          = lower (node_type n)).
Proof.
  split; [repeat constructor|].
  destruct (export_entry_comes_from_node sample_canvas "node_2_b"
              (entry_of (Node "node_2_b" "LLM" 200 10 {[ "name" := VStr "LLM_2_b" ]})))
    as (n & Hn & Hid & Hty & _).
  - vm_compute. reflexivity.
  - exists n. auto.
Defined.

(** X3: ["flow"] has one entry per connection, in the order of the
    connections and with repeated connections kept; each carries the
    connection's two ends and the condition ["default"]. *)
Theorem export_flow_follows_connections c :
  length (flow (to_config c)) = length (connections c) ∧
  ∀ i, flow (to_config c) !! i = flow_entry_of <$> connections c !! i.
Proof.
  rewrite to_config_flow. split.
  - apply length_fmap.
  - intros i. apply list_lookup_fmap.
Qed.

Lemma size_list_to_set_strings (l : list string) :
  (size (list_to_set l : gset string) ≤ length l)%nat ∧
  (size (list_to_set l : gset string) = length l ↔ NoDup l).
Proof.
  induction l as [|a l [IHle IHiff]]; simpl.
  - split; [done|]. split; [constructor|done].
  - destruct (decide (a ∈ l)) as [Hin|Hnotin].
    + replace ({[a]} ∪ list_to_set l : gset string) with (list_to_set l : gset string)
        by set_solver.
      split; [lia|]. split; [lia|].
      intros Hnd. by apply NoDup_cons in Hnd as [? _].
    + rewrite size_union by set_solver. rewrite size_singleton.
      split; [lia|]. rewrite NoDup_cons. split.
      * intros Hs. split; [done|]. apply IHiff. lia.
      * intros [_ Hnd]. apply IHiff in Hnd. lia.
Qed.

(** X4: ["nodes"] never has more entries than the canvas has nodes, and it
    has exactly as many when, and only when, the ids of the nodes are
    pairwise distinct. *)
Theorem export_one_entry_per_node_iff_ids_distinct c :
  (size (config_nodes (to_config c)) ≤ length (nodes c))%nat ∧
  (size (config_nodes (to_config c)) = length (nodes c) ↔
   NoDup (node_id <$> nodes c)).
Proof.
  assert (dom (config_nodes (to_config c)) = list_to_set (node_id <$> nodes c))
    as Hdom.
  { unfold to_config. rewrite process_connections_nodes, process_nodes_dom.
    simpl. rewrite dom_empty_L. set_solver. }
  rewrite <- size_dom, Hdom, <- (length_fmap node_id (nodes c)).
  apply size_list_to_set_strings.
Qed.

End ExportCoverage.

(** ** More on the properties editor and the page script (1Node.py) *)

Section EditorCoverage.
Import Canvas.

Lemma edit_node_fields w n :
  node_id (edit_node w n) = node_id n ∧ node_type (edit_node w n) = node_type n ∧
  node_x (edit_node w n) = node_x n ∧ node_y (edit_node w n) = node_y n.
Proof. unfold edit_node; simpl. by repeat case_match. Qed.

Lemma editor_found w s i n :
  find_selected s = Some (i, n) →
  node_properties_editor w s =
    (Done tt, set_canvas_data
                (CanvasData (<[i := edit_node w n]> (nodes (canvas_data s)))
                            (connections (canvas_data s))) s).
Proof. intros H. unfold node_properties_editor, bind, get, modify. by rewrite H. Qed.

Lemma editor_not_found w s :
  find_selected s = None → node_properties_editor w s = (Done tt, s).
Proof. intros H. unfold node_properties_editor, bind, get. by rewrite H. Qed.

Lemma find_selected_Some s i n :
  find_selected s = Some (i, n) →
  ∃ sel, selected_node s = Some sel ∧ sel ≠ "" ∧
         nodes (canvas_data s) !! i = Some n ∧ node_id n = sel ∧
         ∀ j m, nodes (canvas_data s) !! j = Some m → (j < i)%nat → node_id m ≠ sel.
Proof.
  unfold find_selected. destruct (selected_node s) as [sel|]; [|done].
  destruct sel as [|c sel]; [done|]. intros H.
  apply list_find_Some in H as (Hi & Hid & Hfirst).
  exists (String c sel). repeat split; try done.
Qed.

(** X5: when a node is selected, the editor changes that node only and only
    its properties: it is the first node of the list with the selected id;
    its id, type and position stay; the other nodes, the number of nodes, the
    connections, the selection and the JSON flag stay as they were; and the
    editor cannot fail. *)
Theorem editor_changes_selected_node_only w s i n :
  find_selected s = Some (i, n) →
  fst (node_properties_editor w s) = Done tt ∧
  (∃ n', nodes (canvas_data (edited w s)) !! i = Some n' ∧
         node_id n' = node_id n ∧ node_type n' = node_type n ∧
         node_x n' = node_x n ∧ node_y n' = node_y n) ∧
  (∀ j, j ≠ i →
        nodes (canvas_data (edited w s)) !! j = nodes (canvas_data s) !! j) ∧
  (∀ j m, nodes (canvas_data s) !! j = Some m → (j < i)%nat →
          Some (node_id m) ≠ selected_node s) ∧
  length (nodes (canvas_data (edited w s))) = length (nodes (canvas_data s)) ∧
  connections (canvas_data (edited w s)) = connections (canvas_data s) ∧
  selected_node (edited w s) = selected_node s ∧
  show_json (edited w s) = show_json s.
Proof.
  intros Hsel. unfold edited. rewrite (editor_found w s i n Hsel). simpl.
  destruct (find_selected_Some s i n Hsel) as (sel & Hs & _ & Hi & Hid & Hfirst).
  split; [done|]. split.
  { exists (edit_node w n). split; [|apply edit_node_fields].
    apply list_lookup_insert_eq. by apply lookup_lt_Some in Hi. }
  split.
  { intros j Hj. by apply list_lookup_insert_ne. }
  split.
  { intros j m Hm Hlt. rewrite Hs. intros [= Heq]. by apply (Hfirst j m). }
  split; [apply length_insert|done].
Qed.

Lemma editor_changes_selected_node_only_witness :
  nodes (canvas_data (edited slider_at_half llm_selected)) !! 0%nat
    = nodes (canvas_data llm_selected) !! 0%nat ∧
  connections (canvas_data (edited slider_at_half llm_selected))
    = connections (canvas_data llm_selected).
Proof.
  pose proof (editor_changes_selected_node_only slider_at_half llm_selected 1
                (Node "node_2_b" "LLM" 200 10 {[ "name" := VStr "LLM_2_b" ]})
                eq_refl) as (_ & _ & Hother & _ & _ & Hconn & _).
  split; [by apply Hother|exact Hconn].
Defined.

(** X6: when nothing is selected, the selected id is the empty string, or no
    node has the selected id, the editor leaves the session as it is. *)
Theorem editor_without_selected_node_is_noop w s :
  (selected_node s = Some "" ∨
   ∀ n, n ∈ nodes (canvas_data s) → Some (node_id n) ≠ selected_node s) →
  node_properties_editor w s = (Done tt, s).
Proof.
  intros Hno. apply editor_not_found.
  destruct (find_selected s) as [[i n]|] eqn:Hsel; [|done].
  destruct (find_selected_Some s i n Hsel) as (sel & Hs & Hne & Hi & Hid & _).
  destruct Hno as [Hempty|Hno].
  - rewrite Hs in Hempty. by injection Hempty.
  - destruct (Hno n); [|by rewrite Hs, Hid].
    apply list_elem_of_lookup. eauto.
Qed.

Lemma editor_without_selected_node_is_noop_witness :
  node_properties_editor slider_at_half (Session sample_canvas (Some "node_9_z") true)
    = (Done tt, Session sample_canvas (Some "node_9_z") true).
Proof.
  apply (editor_without_selected_node_is_noop slider_at_half
           (Session sample_canvas (Some "node_9_z") true)).
  right. intros n Hn. simpl in Hn.
  repeat (apply elem_of_cons in Hn as [->|Hn]; [simpl; discriminate|]).
  by apply elem_of_nil in Hn.
Defined.

Lemma edit_node_idem w n : edit_node w (edit_node w n) = edit_node w n.
Proof.
  destruct n as [nid ty x y props]. unfold edit_node, set_prop; simpl.
  destruct (String.eqb ty "LLM") eqn:E1; simpl; rewrite ?E1; simpl.
  { f_equal. apply map_eq. intros k. rewrite !lookup_insert.
    by repeat case_decide. }
  destruct (String.eqb ty "Tool") eqn:E2; simpl; rewrite ?E1, ?E2; simpl.
  { f_equal. apply map_eq. intros k. rewrite !lookup_insert.
    by repeat case_decide. }
  destruct (String.eqb ty "Memory") eqn:E3; simpl; rewrite ?E1, ?E2, ?E3; simpl.
  { f_equal. apply map_eq. intros k. rewrite !lookup_insert.
    by repeat case_decide. }
  destruct (String.eqb ty "Router") eqn:E4; simpl;
    rewrite ?E1, ?E2, ?E3, ?E4; simpl.
  { f_equal. apply map_eq. intros k. rewrite !lookup_insert.
    by repeat case_decide. }
  f_equal. apply insert_insert_eq.
Qed.

(** X7: running the editor again with the same inputs changes nothing more:
    the session after two runs is the session after one. *)
Theorem editor_twice_is_editor_once w s :
  edited w (edited w s) = edited w s.
Proof.
  unfold edited at 2 3.
  destruct (find_selected s) as [[i n]|] eqn:Hsel.
  - rewrite (editor_found w s i n Hsel). simpl.
    destruct (find_selected_Some s i n Hsel) as (sel & Hs & Hne & Hi & Hid & Hfirst).
    set (s' := set_canvas_data _ s).
    assert (find_selected s' = Some (i, edit_node w n)) as Hsel'.
    { unfold find_selected. simpl. rewrite Hs.
      destruct sel as [|c sel]; [done|].
      apply list_find_Some. split; [|split].
      - apply list_lookup_insert_eq. by apply lookup_lt_Some in Hi.
      - destruct (edit_node_fields w n) as [-> _]. done.
      - intros j m Hm Hlt. rewrite list_lookup_insert_ne in Hm by lia.
        by apply (Hfirst j m). }
    unfold edited. rewrite (editor_found w s' i _ Hsel'). simpl.
    unfold set_canvas_data. simpl.
    by rewrite edit_node_idem, list_insert_insert_eq.
  - rewrite (editor_not_found w s Hsel). simpl.
    unfold edited. by rewrite (editor_not_found w s Hsel).
Qed.

Lemma edit_node_exported_config w n :
  node_type n ≠ "LLM" → node_type n ≠ "Tool" →
  entry_config (entry_of (edit_node w n)) = entry_config (entry_of n).
Proof.
  intros Hllm Htool. apply map_eq. intros k. rewrite !entry_of_config.
  case_bool_decide as Hk; [|done].
  assert (k ≠ "name" ∧ k ≠ "memory_type" ∧ k ≠ "routing_logic") as (?&?&?).
  { unfold exported_keys in Hk.
    repeat (apply elem_of_cons in Hk as [->|Hk]; [done|]).
    by apply elem_of_nil in Hk. }
  apply String.eqb_neq in Hllm, Htool.
  unfold edit_node, set_prop; simpl. rewrite Hllm, Htool.
  repeat case_match; simpl; by rewrite ?lookup_insert_ne.
Qed.

Lemma process_nodes_configs ns ns' : ∀ cfg cfg',
  Forall2 (λ n n', node_id n = node_id n' ∧
                   entry_config (entry_of n) = entry_config (entry_of n')) ns ns' →
  entry_config <$> config_nodes cfg = entry_config <$> config_nodes cfg' →
  entry_config <$> config_nodes (foldl process_node cfg ns) =
  entry_config <$> config_nodes (foldl process_node cfg' ns').
Proof.
  intros cfg cfg' HF. revert cfg cfg'.
  induction HF as [|n n' ns ns' [Hid Hcfg] _ IH]; intros cfg cfg' Heq; simpl;
    [done|].
  apply IH. apply map_eq. intros nid. rewrite !lookup_fmap.
  destruct (decide (nid = node_id n)) as [->|Hne].
  - rewrite process_node_entry. rewrite Hid, process_node_entry.
    change (Some (entry_config (entry_of n)) = Some (entry_config (entry_of n'))).
    by rewrite Hcfg.
  - rewrite (process_node_other cfg n nid Hne).
    rewrite (process_node_other cfg' n' nid) by by rewrite <- Hid.
    by rewrite <- !lookup_fmap, Heq.
Qed.

(** X8: editing a node that is neither an LLM node nor a Tool node (a
    Memory, Router, Input or Output node) changes no ["config"] of the
    exported document: the memory type and the routing logic the editor
    stores never reach the export. *)
Theorem editing_memory_or_router_changes_no_config w s i n :
  find_selected s = Some (i, n) →
  node_type n ≠ "LLM" → node_type n ≠ "Tool" →
  exported_configs (canvas_data (edited w s)) = exported_configs (canvas_data s).
Proof.
  intros Hsel Hllm Htool. unfold exported_configs, edited.
  rewrite (editor_found w s i n Hsel). simpl.
  destruct (find_selected_Some s i n Hsel) as (sel & _ & _ & Hi & _ & _).
  unfold to_config. simpl. rewrite !process_connections_nodes.
  apply process_nodes_configs; [|done].
  apply Forall2_same_length_lookup. split; [apply length_insert|].
  intros j m m' Hm Hm'.
  destruct (decide (j = i)) as [->|Hne].
  - rewrite list_lookup_insert_eq in Hm by by apply lookup_lt_Some in Hi.
    injection Hm as <-. rewrite Hi in Hm'. injection Hm' as <-.
    split; [apply edit_node_fields|by apply edit_node_exported_config].
  - rewrite list_lookup_insert_ne in Hm by done.
    rewrite Hm in Hm'. by injection Hm' as <-.
Qed.

Lemma editing_memory_or_router_changes_no_config_witness :
  exported_configs (canvas_data (edited slider_at_half memory_selected))
    = exported_configs (canvas_data memory_selected).
Proof.
  apply (editing_memory_or_router_changes_no_config slider_at_half
           memory_selected 1
           (Node "node_3_c" "Memory" 200 10 {[ "name" := VStr "Memory_3_c" ]}));
    [reflexivity|discriminate|discriminate].
Defined.

(** X9: in a run in which "Clear Canvas" is not clicked, the JSON view is
    shown exactly when "Export JSON" is clicked in this run or the view was
    already open; the document shown is the one of the canvas as the editor
    of the same run left it; "Hide JSON" ends the run with a rerun and
    closes the view; the flag kept for the next run is the view's state. *)
Theorem json_view_follows_export_and_hide w s :
  clear_canvas_clicked w = false →
  let opened := export_json_clicked w || show_json s in
  fst (script_run w s) =
    (if opened
     then if hide_json_clicked w then Rerun
          else Done (Some (to_config (canvas_data (edited w s))))
     else Done None) ∧
  show_json (snd (script_run w s)) = opened && negb (hide_json_clicked w) ∧
  canvas_data (snd (script_run w s)) = canvas_data (edited w s).
Proof.
  intros Hclear opened. subst opened.
  unfold script_run, clear_canvas, export_json, json_export_section,
    generate_agent_config, edited.
  rewrite Hclear.
  destruct (find_selected s) as [[i n]|] eqn:Hsel.
  - assert (∀ b, find_selected (set_show_json b s) = Some (i, n)) as Hsel'
      by (intros b; exact Hsel).
    rewrite (editor_found w s i n Hsel).
    destruct (export_json_clicked w), (show_json s) eqn:Hshow,
      (hide_json_clicked w);
      unfold bind, when, modify, ret, gets, rerun; simpl;
      rewrite ?(editor_found w _ i n (Hsel' true)); simpl;
      rewrite ?(editor_found w s i n Hsel); simpl; rewrite ?Hshow; done.
  - assert (∀ b, find_selected (set_show_json b s) = None) as Hsel'
      by (intros b; exact Hsel).
    rewrite (editor_not_found w s Hsel).
    destruct (export_json_clicked w), (show_json s) eqn:Hshow,
      (hide_json_clicked w);
      unfold bind, when, modify, ret, gets, rerun; simpl;
      rewrite ?(editor_not_found w _ (Hsel' true)); simpl;
      rewrite ?(editor_not_found w s Hsel); simpl; rewrite ?Hshow; done.
Qed.

Lemma json_view_follows_export_and_hide_witness :
  fst (script_run click_export_json llm_selected) =
    Done (Some (to_config (canvas_data (edited click_export_json llm_selected)))).
Proof.
  apply (json_view_follows_export_and_hide click_export_json llm_selected).
  reflexivity.
Defined.

End EditorCoverage.

(** ** More on the page script (1Node.py, lines 172-373) *)

Section PageCoverage.
Import Canvas.

Lemma template_iff_component_type t :
  is_Some (componentTemplates !! t) ↔ t ∈ component_types.
Proof.
  rewrite <- elem_of_dom. unfold componentTemplates.
  rewrite dom_list_to_map_L. simpl. unfold component_types. set_solver.
Qed.

(** An own template is found by the lookup. *)
Lemma template_of_own t :
  is_Some (componentTemplates !! t) → is_Some (template_of t).
Proof. intros [c Hc]. unfold template_of. rewrite Hc. eauto. Qed.

(** The lookup finds the six component types and the names inherited from
    [Object.prototype], nothing else. *)
Lemma template_of_found t :
  is_Some (template_of t) ↔ t ∈ component_types ∨ t ∈ object_prototype_keys.
Proof.
  rewrite <- template_iff_component_type. unfold template_of.
  destruct (componentTemplates !! t) as [c|] eqn:Hc.
  - split; eauto.
  - case_bool_decide as Hk.
    + split; eauto.
    + split; [by intros [? ?]|]. intros [[? ?]|?]; done.
Qed.

Lemma createNode_known type x y now rnd p :
  is_Some (template_of type) →
  createNode type x y now rnd p =
  let g := Group (objects_created p) (new_node_id now rnd) type
                 (round_double (x - 60)) (round_double (y - 40)) in
  let c := CanvasData (nodes (canvasState p) ++ [created_node type x y now rnd])
                      (connections (canvasState p)) in
  (Done g, Page c (canvas_objects p ++ [g]) (S (objects_created p))
                (selectedNodeId p) (connectionMode p) (connectionStart p)
                (posted p ++ [canvas_updated c])).
Proof. intros [t Ht]. unfold createNode. by rewrite Ht. Qed.

(** X10: no handler of the page ends with an exception, whatever the event
    and the page: the double-click handler calls [createNode] only for a
    type [componentTemplates[type]] finds a value for, and with a value
    [createNode] does not throw. *)
Theorem page_handlers_never_raise e p : fst (handle e p) = Done tt.
Proof.
  destruct e as [x y answer now rnd|key|i now|]; simpl.
  - unfold on_dblclick, bind, get. destruct (connectionMode p); [done|].
    destruct answer as [[|c t]|]; [done| |done].
    case_bool_decide as Ht; [|done].
    by rewrite (createNode_known _ x y now rnd p Ht).
  - unfold on_keydown, bind, get, when. by case_match.
  - unfold click_object, bind, get.
    destruct (canvas_objects p !! i) as [g|]; [|done].
    unfold on_mousedown, bind, get. destruct (connectionMode p); [|done].
    destruct (connectionStart p); [|done]. by case_bool_decide.
  - done.
Qed.

(** X11: a double click changes the page exactly when the page is not in
    connection mode and the answer to the prompt is a non-empty text that
    [componentTemplates[type]] finds a value for: one of the six component
    types, or the name of a property inherited from [Object.prototype],
    such as ["constructor"] or ["toString"].  In connection mode, with the
    prompt cancelled or with any other answer, the page stays as it is. *)
Theorem dblclick_changes_page_iff x y answer now rnd p :
  snd (on_dblclick x y answer now rnd p) ≠ p ↔
  connectionMode p = false ∧
  ∃ t, answer = Some t ∧ t ≠ "" ∧
       (t ∈ component_types ∨ t ∈ object_prototype_keys).
Proof.
  setoid_rewrite <- template_of_found.
  unfold on_dblclick, bind, get.
  destruct (connectionMode p) eqn:Hmode; simpl.
  { split; [done|]. by intros [? _]. }
  destruct answer as [t|]; simpl.
  2:{ split; [done|]. by intros (_ & t & ? & _). }
  destruct t as [|c t]; simpl.
  { split; [done|]. by intros (_ & t & [= <-] & Hne & _). }
  case_bool_decide as Ht.
  - rewrite (createNode_known _ x y now rnd p Ht). simpl. split.
    + intros _. split; [done|]. by exists (String c t).
    + intros _ Heq. apply (f_equal objects_created) in Heq. simpl in Heq. lia.
  - simpl. split; [done|]. by intros (_ & t' & [= <-] & _ & Ht').
Qed.


Lemma handle_objects_distinct e p :
  objects_distinct p → objects_distinct (snd (handle e p)).
Proof.
  intros [Hnd Hlt]. destruct e as [x y answer now rnd|key|i now|]; simpl.
  - unfold on_dblclick, bind, get. destruct (connectionMode p); [done|].
    destruct answer as [[|c t]|]; [done| |done].
    case_bool_decide as Ht; [|done].
    rewrite (createNode_known _ x y now rnd p Ht). simpl. split; simpl.
    + rewrite fmap_app. apply NoDup_app. split; [done|]. split.
      * intros o Ho Ho'. apply list_elem_of_singleton in Ho'. simpl in Ho'.
        apply list_elem_of_fmap in Ho as (g & -> & Hg). apply Hlt in Hg. lia.
      * simpl. apply NoDup_singleton.
    + intros g Hg. apply elem_of_app in Hg as [Hg|Hg].
      * apply Hlt in Hg. lia.
      * apply list_elem_of_singleton in Hg as ->. simpl. lia.
  - unfold on_keydown, bind, get, when. by case_match.
  - unfold click_object, bind, get.
    destruct (canvas_objects p !! i) as [g|]; [|done].
    unfold on_mousedown, bind, get. destruct (connectionMode p); [|done].
    destruct (connectionStart p); [|done]. by case_bool_decide.
  - split; simpl; [constructor|]. intros g Hg. by apply elem_of_nil in Hg.
Qed.

Lemma page_after_objects_distinct events : ∀ p,
  objects_distinct p → objects_distinct (page_after events p).
Proof.
  induction events as [|e events IH]; intros p Hp; simpl; [done|].
  by apply IH, handle_objects_distinct.
Qed.

Lemma load_page_objects_distinct c : objects_distinct (load_page c).
Proof.
  split; simpl; [constructor|]. intros g Hg. by apply elem_of_nil in Hg.
Qed.

(** X13: on any page reached from a loaded page, in connection mode and
    with no start chosen, a click on one group and then on another one
    appends exactly the connection from the first group's id to the
    second's, with the id made at the second click, leaves the nodes as
    they are, and ends connection mode. *)
Theorem two_clicks_make_one_connection events c i j a b t1 t2 :
  let p := page_after events (load_page c) in
  connectionMode p = true → connectionStart p = None →
  canvas_objects p !! i = Some a → canvas_objects p !! j = Some b → i ≠ j →
  let p' := page_after [Click i t1; Click j t2] p in
  connections (canvasState p') =
    connections (canvasState p) ++ [Connection (nodeId a) (nodeId b) (new_conn_id t2)] ∧
  nodes (canvasState p') = nodes (canvasState p) ∧
  connectionMode p' = false ∧ connectionStart p' = None.
Proof.
  intros p Hmode Hstart Ha Hb Hij p'.
  assert (objects_distinct p) as [Hnd _]
    by apply page_after_objects_distinct, load_page_objects_distinct.
  assert (group_obj a ≠ group_obj b) as Hab.
  { intros Heq. apply Hij.
    apply (NoDup_lookup _ i j (group_obj a) Hnd);
      rewrite list_lookup_fmap; [by rewrite Ha|by rewrite Hb, Heq]. }
  assert (snd (click_object i t1 p) = set_connection true (Some a) p) as H1.
  { unfold click_object, bind, get. rewrite Ha.
    unfold on_mousedown, bind, get. by rewrite Hmode, Hstart. }
  subst p'. unfold page_after. simpl. rewrite H1.
  unfold click_object, bind, get. simpl. rewrite Hb.
  unfold on_mousedown, bind, get. simpl.
  by rewrite bool_decide_true.
Qed.

Lemma two_clicks_make_one_connection_witness :
  connections (canvasState (page_after [Click 0 2000; Click 1 2001] two_node_page))
    = [Connection "node_1000_aaaaaaaaa" "node_1002_bbbbbbbbb" "conn_2001"].
Proof.
  pose proof (two_clicks_make_one_connection
                [DblClick 100 100 (Some "Input") 1000 "0.aaaaaaaaaaaa";
                 DblClick 300 100 (Some "LLM") 1002 "0.bbbbbbbbbbbb";
                 KeyDown "c"]
                empty_canvas 0 1
                (Group 0 "node_1000_aaaaaaaaa" "Input" 40 60)
                (Group 1 "node_1002_bbbbbbbbb" "LLM" 240 60) 2000 2001
                eq_refl eq_refl eq_refl eq_refl ltac:(discriminate)) as [H _].
  exact H.
Defined.

End PageCoverage.

Section PageInvariants.
Import Canvas.

Lemma last_canvas_update_updated msgs c :
  last_canvas_update (msgs ++ [canvas_updated c]) = Some c.
Proof. unfold last_canvas_update. rewrite omap_app. simpl. apply last_snoc. Qed.

Lemma last_canvas_update_selected msgs nid :
  last_canvas_update (msgs ++ [node_selected nid]) = last_canvas_update msgs.
Proof. unfold last_canvas_update. rewrite omap_app. simpl. by rewrite app_nil_r. Qed.

(** What a handler other than the ['clear_canvas'] one posts: nothing or a
    selection when it leaves the canvas state, the new canvas state when it
    changes it; and what it appends. *)
Lemma handle_effect e p :
  e ≠ ClearCanvasMessage →
  let p' := snd (handle e p) in
  (canvasState p' = canvasState p ∧
   (posted p' = posted p ∨ ∃ nid, posted p' = posted p ++ [node_selected nid]))
  ∨
  (posted p' = posted p ++ [canvas_updated (canvasState p')] ∧
   ((∃ n, nodes (canvasState p') = nodes (canvasState p) ++ [n] ∧
          connections (canvasState p') = connections (canvasState p)) ∨
    (∃ k, connections (canvasState p') = connections (canvasState p) ++ [k] ∧
          nodes (canvasState p') = nodes (canvasState p)))).
Proof.
  intros Hne. destruct e as [x y answer now rnd|key|i now|]; [| | |done]; simpl.
  - unfold on_dblclick, bind, get. destruct (connectionMode p); [by left; eauto|].
    destruct answer as [[|c t]|]; [by left; eauto| |by left; eauto].
    case_bool_decide as Ht; [|by left; eauto].
    rewrite (createNode_known _ x y now rnd p Ht). simpl. right. eauto.
  - unfold on_keydown, bind, get, when. left.
    by destruct (String.eqb key "c" || String.eqb key "C"); eauto.
  - unfold click_object, bind, get.
    destruct (canvas_objects p !! i) as [g|]; [|by left; eauto].
    unfold on_mousedown, bind, get. destruct (connectionMode p).
    + destruct (connectionStart p) as [start|]; [|by left; eauto].
      case_bool_decide; [|by left; eauto]. simpl. right. eauto.
    + simpl. left. eauto.
Qed.

(** X14: as long as no ['clear_canvas'] message arrives, Streamlit is told of
    every change: the canvas state of the last ['canvas_updated'] message is
    the page's current canvas state, or no such message was posted and the
    canvas state is still the one the page was loaded with. *)
Theorem last_posted_update_is_current events c :
  ClearCanvasMessage ∉ events →
  let p := page_after events (load_page c) in
  last_canvas_update (posted p) = Some (canvasState p) ∨
  (last_canvas_update (posted p) = None ∧ canvasState p = c).
Proof.
  intros Hno p. subst p.
  assert (∀ p, last_canvas_update (posted p) = Some (canvasState p) ∨
               (last_canvas_update (posted p) = None ∧ canvasState p = c) →
               last_canvas_update (posted (page_after events p))
                 = Some (canvasState (page_after events p)) ∨
               (last_canvas_update (posted (page_after events p)) = None ∧
                canvasState (page_after events p) = c)) as Hgen.
  { induction events as [|e events IH]; intros p Hp; simpl; [done|].
    apply not_elem_of_cons in Hno as [Hne Hno]. apply IH; [done|].
    destruct (handle_effect e p (not_eq_sym Hne)) as [[Hsame [Hpost|[nid Hpost]]]|[Hpost _]];
      rewrite Hpost.
    - by rewrite Hsame.
    - by rewrite last_canvas_update_selected, Hsame.
    - left. apply last_canvas_update_updated. }
  apply Hgen. right. done.
Qed.

Lemma last_posted_update_is_current_witness :
  last_canvas_update (posted two_node_page) = Some (canvasState two_node_page).
Proof.
  destruct (last_posted_update_is_current
              [DblClick 100 100 (Some "Input") 1000 "0.aaaaaaaaaaaa";
               DblClick 300 100 (Some "LLM") 1002 "0.bbbbbbbbbbbb";
               KeyDown "c"] empty_canvas) as [H|[H _]].
  - intros Hin. repeat (apply elem_of_cons in Hin as [Hin|Hin]; [discriminate|]).
    by apply elem_of_nil in Hin.
  - exact H.
  - vm_compute in H. discriminate.
Defined.

(** X15: as long as no ['clear_canvas'] message arrives, nothing on the page
    is removed or reordered: the nodes and the connections a page holds
    stay, in place, at the front of the lists of every later page. *)
Theorem page_lists_are_append_only events p :
  ClearCanvasMessage ∉ events →
  nodes (canvasState p) `prefix_of` nodes (canvasState (page_after events p)) ∧
  connections (canvasState p)
    `prefix_of` connections (canvasState (page_after events p)).
Proof.
  revert p. induction events as [|e events IH]; intros p Hno; simpl; [done|].
  apply not_elem_of_cons in Hno as [Hne Hno].
  destruct (IH (snd (handle e p)) Hno) as [Hn Hc].
  assert (nodes (canvasState p) `prefix_of` nodes (canvasState (snd (handle e p))) ∧
          connections (canvasState p)
            `prefix_of` connections (canvasState (snd (handle e p)))) as [Hn1 Hc1].
  { destruct (handle_effect e p (not_eq_sym Hne))
      as [[-> _]|[_ [(n & -> & ->)|(k & -> & ->)]]]; split;
      try done; by apply prefix_app_r. }
  split; by etrans.
Qed.

Lemma page_lists_are_append_only_witness :
  nodes (canvasState (load_page sample_canvas))
    `prefix_of` nodes (canvasState
                         (page_after [DblClick 300 100 (Some "Tool") 1002 "0.bbbbbbbbbbbb"]
                            (load_page sample_canvas))).
Proof.
  apply (page_lists_are_append_only
           [DblClick 300 100 (Some "Tool") 1002 "0.bbbbbbbbbbbb"]
           (load_page sample_canvas)).
  intros Hin. apply list_elem_of_singleton in Hin. discriminate.
Defined.

Lemma endpoints_exist_integrity c :
  endpoints_exist c → referential_integrity (to_config c).
Proof.
  intros H e He. rewrite to_config_flow in He.
  apply list_elem_of_fmap in He as (k & -> & Hk). simpl.
  rewrite !to_config_keys. by apply H.
Qed.

(** X16: as long as no ['clear_canvas'] message arrives, a page loaded with
    a canvas whose connections join ids of its nodes keeps that: the
    document exported from the page's canvas state after any sequence of
    double clicks, clicks and key presses has every end of ["flow"] among
    the keys of ["nodes"]. *)
Theorem page_without_clear_exports_integrity events c :
  ClearCanvasMessage ∉ events → endpoints_exist c →
  referential_integrity
    (to_config (canvasState (page_after events (load_page c)))).
Proof.
  intros Hno Hc. apply endpoints_exist_integrity.
  by apply page_after_ok, load_page_ok.
Qed.

Lemma page_without_clear_exports_integrity_witness :
  referential_integrity
    (to_config (canvasState (page_after [Click 0 2000; Click 1 2001] two_node_page))).
Proof.
  apply (page_without_clear_exports_integrity
           [DblClick 100 100 (Some "Input") 1000 "0.aaaaaaaaaaaa";
            DblClick 300 100 (Some "LLM") 1002 "0.bbbbbbbbbbbb";
            KeyDown "c"; Click 0 2000; Click 1 2001] empty_canvas).
  - intros Hin. repeat (apply elem_of_cons in Hin as [Hin|Hin]; [discriminate|]).
    by apply elem_of_nil in Hin.
  - intros k Hk. by apply elem_of_nil in Hk.
Defined.

Lemma bind_done {St A B} (m : Script St A) (k : A → Script St B) s a s' :
  m s = (Done a, s') → bind m k s = k a s'.
Proof. unfold bind. by intros ->. Qed.

Lemma for_each_createNode draws l : ∀ k q,
  Forall (λ n, is_Some (template_of (node_type n))) l →
  let r := for_each (λ i node,
                       bind (createNode (node_type node) (node_x node) (node_y node)
                                        (draws i).1 (draws i).2)
                            (λ _, ret tt)) k l q in
  fst r = Done tt ∧
  nodes (canvasState (snd r)) =
    nodes (canvasState q) ++ imap (λ i, recreated draws (k + i)) l ∧
  connections (canvasState (snd r)) = connections (canvasState q) ∧
  nodeId <$> canvas_objects (snd r) =
    (nodeId <$> canvas_objects q) ++ (node_id <$> imap (λ i, recreated draws (k + i)) l).
Proof.
  induction l as [|a l IH]; intros k q Hl; cbv zeta.
  - simpl. by rewrite !app_nil_r.
  - apply Forall_cons in Hl as [Ha Hl].
    pose proof (createNode_known (node_type a) (node_x a) (node_y a)
                  (draws k).1 (draws k).2 q Ha) as Hc.
    cbv zeta in Hc.
    change (for_each ?body k (a :: l)) with (bind (body k a) (λ _, for_each body (S k) l)).
    erewrite bind_done; [|erewrite bind_done; [reflexivity|exact Hc]].
    match goal with |- context [for_each _ (S k) l ?q1] =>
      destruct (IH (S k) q1 Hl) as (Hout & Hnodes & Hconn & Hobj) end.
    assert (imap (λ i, recreated draws (S k + i)) l =
            imap ((λ i, recreated draws (k + i)) ∘ S) l) as Himap.
    { apply imap_ext. intros i n _. unfold compose. f_equal. lia. }
    rewrite Himap in Hnodes, Hobj.
    split; [exact Hout|]. rewrite Hnodes, Hconn, Hobj.
    cbn [nodes connections canvasState canvas_objects].
    rewrite imap_cons, Nat.add_0_r, !fmap_app, <- !app_assoc.
    done.
Qed.

(** X17: drawing a stored canvas again does not show the stored nodes but
    copies them: when every stored node has a type with a template,
    [renderExistingState] ends normally, and afterwards the node list is the
    stored nodes followed by one new node for each, with the type and the
    position of the stored one but a new id and the default name; so the
    list is twice as long; the connections are as before, and the groups on
    the canvas carry the ids of the new nodes. *)
Theorem renderExistingState_copies_nodes draws p :
  types_known (canvasState p) →
  let r := renderExistingState draws p in
  fst r = Done tt ∧
  nodes (canvasState (snd r)) =
    nodes (canvasState p) ++ imap (recreated draws) (nodes (canvasState p)) ∧
  length (nodes (canvasState (snd r))) = (2 * length (nodes (canvasState p)))%nat ∧
  connections (canvasState (snd r)) = connections (canvasState p) ∧
  nodeId <$> canvas_objects (snd r) =
    node_id <$> imap (recreated draws) (nodes (canvasState p)).
Proof.
  intros Hknown r. subst r.
  apply (Forall_impl _ (λ n, is_Some (template_of (node_type n)))) in Hknown;
    [|intros n; apply template_of_own].
  assert (renderExistingState draws p =
          for_each (λ i node,
                      bind (createNode (node_type node) (node_x node) (node_y node)
                                       (draws i).1 (draws i).2)
                           (λ _, ret tt))
                   0 (nodes (canvasState p)) (canvas_clear p)) as -> by done.
  destruct (for_each_createNode draws (nodes (canvasState p)) 0 (canvas_clear p) Hknown)
    as (Hout & Hnodes & Hconn & Hobj).
  split; [exact Hout|]. rewrite Hnodes, Hconn, Hobj.
  repeat split. rewrite length_app, length_imap. simpl. lia.
Qed.

Lemma renderExistingState_copies_nodes_witness :
  length (nodes (canvasState
                   (snd (renderExistingState constant_draws (load_page sample_canvas)))))
    = 4%nat.
Proof.
  pose proof (renderExistingState_copies_nodes constant_draws
                (load_page sample_canvas)) as H.
  simpl in H. destruct H as (_ & _ & Hlen & _).
  - repeat constructor; vm_compute; eauto.
  - exact Hlen.
Defined.

End PageInvariants.

(** ** More on the handlers of Node.py *)

Section BuilderCoverage.
Import Builder.

Lemma after_simulate_run prompt response s :
  after (SimulateRun prompt response) s =
  log_append ("Prompt: " +:+ prompt +:+ String "010" "Agent (simulated): " +:+ response)
    (set_execution_stats
       (Stats (total_runs (execution_stats s) + 1)
              (successful_runs (execution_stats s) + 1)
              (failed_runs (execution_stats s))
              (avg_response_time (execution_stats s))) s).
Proof. reflexivity. Qed.

Lemma after_add_demo_connection conn_id s : after (AddDemoConnection conn_id) s = s.
Proof.
  unfold after. simpl. rewrite add_demo_connection_eval. by case_match.
Qed.

Lemma after_load_cases name s :
  after (Load name) s = s ∨
  ∃ l, saved_agents s !! name = Some l ∧ after (Load name) s = set_agent_flow l s.
Proof.
  unfold after, script_run, load, bind, get, start; simpl.
  case_bool_decide; [by left|].
  destruct (String.eqb name ""); [by left|].
  destruct (saved_agents s !! name) as [l|]; [|by left].
  right. eauto.
Qed.

Lemma count_clicks_cons f c clicks :
  count_clicks f (c :: clicks) =
  ((if f c then 1 else 0) + count_clicks f clicks)%nat.
Proof.
  unfold count_clicks. rewrite filter_cons.
  destruct (f c); case_decide; simpl; done.
Qed.

(** X18: after any sequence of clicks the statistics show as many runs, and
    as many successful runs, more as "Simulate Run" was clicked; the number
    of failed runs and the average response time never change, so in a
    session they stay 0 and 0.0. *)
Theorem statistics_count_simulated_runs clicks s :
  let t := execution_stats (after_all clicks s) in
  total_runs t =
    (total_runs (execution_stats s) + count_clicks is_simulate_run clicks)%nat ∧
  successful_runs t =
    (successful_runs (execution_stats s) + count_clicks is_simulate_run clicks)%nat ∧
  failed_runs t = failed_runs (execution_stats s) ∧
  avg_response_time t = avg_response_time (execution_stats s).
Proof.
  revert s. induction clicks as [|c clicks IH]; intros s; simpl.
  - unfold count_clicks. simpl. repeat split; lia.
  - destruct (IH (after c s)) as (Ht & Hs & Hf & Ha).
    rewrite count_clicks_cons. cbv zeta in Ht, Hs, Hf, Ha.
    rewrite Ht, Hs, Hf, Ha. clear Ht Hs Hf Ha IH.
    assert (execution_stats (after c s) =
            if is_simulate_run c
            then Stats (total_runs (execution_stats s) + 1)
                       (successful_runs (execution_stats s) + 1)
                       (failed_runs (execution_stats s))
                       (avg_response_time (execution_stats s))
            else execution_stats s) as ->.
    { destruct c; cbn [is_simulate_run].
      - by rewrite after_clear.
      - by rewrite after_save.
      - by destruct (after_load_cases selected_agent s) as [->|(l & _ & ->)].
      - by rewrite after_simulate_run.
      - by rewrite after_add_demo_node.
      - by rewrite after_add_demo_connection. }
    destruct (is_simulate_run c), (execution_stats s); simpl; repeat split; lia.
Qed.

(** X19: the execution log only grows: after any sequence of clicks it is
    the earlier log followed by one entry for each "Simulate Run" and each
    "Add Demo Node" click; "Clear" and "Load Agent" leave it as it is. *)
Theorem execution_log_grows_by_runs_and_nodes clicks s :
  execution_log s `prefix_of` execution_log (after_all clicks s) ∧
  length (execution_log (after_all clicks s)) =
    (length (execution_log s) + count_clicks writes_log clicks)%nat.
Proof.
  revert s. induction clicks as [|c clicks IH]; intros s; simpl.
  - unfold count_clicks. simpl. split; [done|lia].
  - destruct (IH (after c s)) as [Hpre Hlen].
    rewrite count_clicks_cons, Hlen. clear Hlen IH.
    assert (execution_log s `prefix_of` execution_log (after c s) ∧
            length (execution_log (after c s)) =
              (length (execution_log s) + if writes_log c then 1 else 0)%nat)
      as [Hpre1 Hlen1].
    { destruct c; cbn [writes_log].
      - rewrite after_clear. simpl. split; [done|lia].
      - rewrite after_save. simpl. split; [done|lia].
      - destruct (after_load_cases selected_agent s) as [->|(l & _ & ->)]; simpl;
          (split; [done|lia]).
      - rewrite after_simulate_run. simpl. rewrite length_app. simpl.
        split; [by apply prefix_app_r|lia].
      - rewrite after_add_demo_node. simpl. rewrite length_app. simpl.
        split; [by apply prefix_app_r|lia].
      - rewrite after_add_demo_connection. split; [done|lia]. }
    split; [by etrans|]. rewrite Hlen1. lia.
Qed.

Lemma after_keeps_connections_empty c s :
  (∀ l f, objects s !! l = Some f → connections f = []) →
  ∀ l f, objects (after c s) !! l = Some f → connections f = [].
Proof.
  intros Hinv l f. destruct c.
  - rewrite after_clear. unfold new_agent_flow; simpl.
    rewrite lookup_insert. case_decide; [by intros [= <-]|apply Hinv].
  - rewrite after_save. apply Hinv.
  - destruct (after_load_cases selected_agent s) as [->|(l' & _ & ->)]; apply Hinv.
  - rewrite after_simulate_run. apply Hinv.
  - rewrite after_add_demo_node. unfold mutate_flow; simpl.
    rewrite lookup_alter. case_decide as Heq; [subst l|apply Hinv].
    destruct (objects s !! agent_flow s) as [f'|] eqn:Hl; simpl; [|done].
    intros [= <-]. simpl. by apply (Hinv (agent_flow s)).
  - rewrite after_add_demo_connection. apply Hinv.
Qed.

(** X20: no session ever holds a connection: after any sequence of clicks
    on a new session, every graph of the session, the current one and each
    saved one, has an empty list of connections. *)
Theorem no_session_holds_a_connection clicks :
  let s := after_all clicks initial_session in
  (∀ l f, objects s !! l = Some f → connections f = []) ∧
  connections (current_flow s) = [] ∧
  ∀ name f, saved_flow s name = Some f → connections f = [].
Proof.
  intros s.
  assert (∀ l f, objects s !! l = Some f → connections f = []) as Hinv.
  { subst s.
    assert (∀ s0, (∀ l f, objects s0 !! l = Some f → connections f = []) →
                  ∀ l f, objects (after_all clicks s0) !! l = Some f →
                         connections f = []) as Hgen.
    { induction clicks as [|c clicks IH]; intros s0 H0; simpl; [done|].
      apply IH. by apply after_keeps_connections_empty. }
    apply Hgen. intros l f Hl. unfold initial_session in Hl; simpl in Hl.
    apply lookup_singleton_Some in Hl as [_ <-]. done. }
  split; [done|].
  assert (∀ l, connections (deref s l) = []) as Hderef.
  { intros l. unfold deref. destruct (objects s !! l) as [f|] eqn:Hl; simpl; [|done].
    by apply (Hinv l). }
  split; [apply Hderef|].
  intros name f. unfold saved_flow.
  destruct (saved_agents s !! name) as [l|]; simpl; [|done].
  intros [= <-]. apply Hderef.
Qed.

(** X21: the log view shows at most ten entries, the newest first: its
    [i]-th entry is the [i]-th entry of the log counted from the end, and an
    entry just appended is the first one shown. *)
Theorem recent_log_shows_newest_first log entry :
  length (recent_log log) = (length log `min` 10)%nat ∧
  (∀ i, (i < length log `min` 10)%nat →
        recent_log log !! i = log !! (length log - 1 - i)%nat) ∧
  head (recent_log (log ++ [entry])) = Some entry.
Proof.
  assert (∀ l : list string,
            length (recent_log l) = (length l `min` 10)%nat ∧
            ∀ i, (i < length l `min` 10)%nat →
                 recent_log l !! i = l !! (length l - 1 - i)%nat) as Hgen.
  { intros l. unfold recent_log. split.
    - rewrite length_reverse, length_drop. lia.
    - intros i Hi. rewrite reverse_lookup by (rewrite length_drop; lia).
      rewrite lookup_drop, length_drop. f_equal. lia. }
  destruct (Hgen log) as [Hlen Hi]. split; [done|]. split; [done|].
  destruct (Hgen (log ++ [entry])) as [_ Hi'].
  rewrite head_lookup, Hi' by (rewrite length_app; simpl; lia).
  rewrite length_app. simpl.
  replace (length log + 1 - 1 - 0)%nat with (length log) by lia.
  by rewrite lookup_app_r, Nat.sub_diag by lia.
Qed.

End BuilderCoverage.

Section RegistryCoverage.
Import Builder.

(** X22: "Load Agent" with the empty name, or with a name under which
    nothing is saved, leaves the session as it is and shows nothing; it ends
    normally when the name is empty or nothing at all is saved, and raises
    [KeyError] otherwise.  So a graph saved under the empty name cannot be
    loaded. *)
Theorem load_of_empty_or_unsaved_name name s :
  name = "" ∨ saved_agents s !! name = None →
  script_run (Load name) (start s) =
    (if bool_decide (saved_agents s = ∅) || String.eqb name ""
     then Done tt else Raised (KeyError name),
     start s).
Proof.
  intros Hname. simpl. unfold load, bind, get, start; simpl.
  case_bool_decide; simpl; [done|].
  destruct (String.eqb name "") eqn:Heq; [done|].
  destruct Hname as [->|Hnone]; [done|]. by rewrite Hnone.
Qed.

Lemma load_of_empty_or_unsaved_name_witness :
  saved_agents saved_under_empty_name !! "" = Some 0%nat ∧
  script_run (Load "") (start saved_under_empty_name)
    = (Done tt, start saved_under_empty_name).
Proof.
  split; [reflexivity|].
  rewrite (load_of_empty_or_unsaved_name "" saved_under_empty_name (or_introl eq_refl)).
  reflexivity.
Defined.

(** X23: "Save" changes nothing but the registry entry of its name: the
    graphs, the current graph, the log, the statistics and the entries of
    the other names stay; and "Load Agent" with that name right after it (a
    non-empty name) shows "Loaded agent!", ends with a rerun and leaves the
    session as the save left it. *)
Theorem save_then_load_keeps_session name s :
  name ≠ "" →
  let s1 := after (Save name) s in
  objects s1 = objects s ∧ agent_flow s1 = agent_flow s ∧
  execution_log s1 = execution_log s ∧ execution_stats s1 = execution_stats s ∧
  (∀ other, other ≠ name → saved_agents s1 !! other = saved_agents s !! other) ∧
  script_run (Load name) (start s1) = (Rerun, Run s1 [success "Loaded agent!"]).
Proof.
  intros Hname s1. subst s1. rewrite after_save.
  repeat split.
  - intros other Hother. simpl. by rewrite lookup_insert_ne.
  - simpl. unfold load, bind, get, start; simpl.
    rewrite bool_decide_false by apply insert_non_empty.
    apply String.eqb_neq in Hname. rewrite Hname, lookup_insert_eq. simpl.
    by destruct s.
Qed.

Lemma save_then_load_keeps_session_witness :
  script_run (Load "MyAgent") (start (after (Save "MyAgent") initial_session))
    = (Rerun, Run (after (Save "MyAgent") initial_session) [success "Loaded agent!"]).
Proof.
  apply (save_then_load_keeps_session "MyAgent" initial_session).
  discriminate.
Defined.

(** X24: "Clear" replaces the current graph and nothing else: the log, the
    statistics and the registry stay, every graph object the session held is
    still there unchanged, and so the graph stored under each name is the
    one that was stored before. *)
Theorem clear_keeps_log_statistics_and_saved_agents s :
  execution_log (after Clear s) = execution_log s ∧
  execution_stats (after Clear s) = execution_stats s ∧
  saved_agents (after Clear s) = saved_agents s ∧
  objects s ⊆ objects (after Clear s) ∧
  ∀ name, saved_flow (after Clear s) name = saved_flow s name.
Proof.
  rewrite after_clear. split; [done|]. split; [done|]. split; [done|].
  assert (objects s !! fresh (dom (objects s)) = None) as Hfresh.
  { apply not_elem_of_dom. apply is_fresh. }
  split.
  - unfold new_agent_flow; simpl. by apply insert_subseteq.
  - intros name. unfold saved_flow.
    change (saved_agents (new_agent_flow s)) with (saved_agents s).
    destruct (saved_agents s !! name) as [l|]; simpl; [|done]. f_equal.
    unfold deref, new_agent_flow; simpl. rewrite lookup_insert.
    case_decide as Hl; [|done]. subst l. by rewrite Hfresh.
Qed.

(** X25: "Add Demo Node" appends one node to the current graph: an
    [Input] node with no properties whose two coordinates, the products of
    the random numbers and 400 as doubles, lie from 0 up to but not
    including 400 when the two random numbers are doubles from 0 up to but
    not including 1; and it logs the node's name. *)
Theorem add_demo_node_appends_input_node new_id rx ry s :
  wf s →
  is_double rx → (0 <= rx)%Q → (rx < 1)%Q →
  is_double ry → (0 <= ry)%Q → (ry < 1)%Q →
  let s' := after (AddDemoNode new_id rx ry) s in
  ∃ n, nodes (current_flow s') = nodes (current_flow s) ++ [n] ∧
       node_type n = "Input" ∧ node_properties n = ∅ ∧
       (0 <= node_x n)%Q ∧ (node_x n < 400)%Q ∧
       (0 <= node_y n)%Q ∧ (node_y n < 400)%Q ∧
       connections (current_flow s') = connections (current_flow s) ∧
       execution_log s' = execution_log s ++ ["Added demo node: " +:+ node_name n].
Proof.
  intros Hwf Hdx Hx0 Hx1 Hdy Hy0 Hy1 s'. subst s'.
  exists (demo_node new_id rx ry).
  rewrite add_demo_node_nodes by done.
  split; [done|]. split; [done|]. split; [done|].
  assert (∀ r : Q, is_double r → (0 <= r)%Q → (r < 1)%Q →
                   (0 <= round_double (r * 400))%Q ∧
                   (round_double (r * 400) < 400)%Q) as Hrange.
  { intros r Hd H0 H1. split.
    - apply round_double_nonneg. by apply Qmult_le_0_compat.
    - apply round_double_below_400; [done|]. by apply double_below_one. }
  destruct (Hrange rx Hdx Hx0 Hx1), (Hrange ry Hdy Hy0 Hy1).
  cbn [node_x node_y demo_node].
  repeat split; try done.
  rewrite after_add_demo_node.
  change (current_flow (log_append ?e ?s0)) with (current_flow s0).
  by rewrite current_flow_mutate.
Qed.

Lemma add_demo_node_appends_input_node_witness :
  ∃ n, nodes (current_flow (after (AddDemoNode sample_uuid (1 # 2) (1 # 4))
                              initial_session)) = [] ++ [n] ∧
       node_type n = "Input" ∧
       (0 <= node_x n)%Q ∧ (node_x n < 400)%Q ∧
       (0 <= node_y n)%Q ∧ (node_y n < 400)%Q.
Proof.
  destruct (add_demo_node_appends_input_node sample_uuid (1 # 2) (1 # 4)
              initial_session wf_initial_session)
    as (n & Hn & Hty & _ & Hx0 & Hx1 & Hy0 & Hy1 & _); try (by compute).
  exists n. repeat split; assumption.
Defined.

End RegistryCoverage.

Section StaleStart.
Import Canvas.

Lemma handle_start_created e p :
  objects_distinct p → start_created p → start_created (snd (handle e p)).
Proof.
  intros [_ Hlt] Hstart. destruct e as [x y answer now rnd|key|i now|]; simpl.
  - unfold on_dblclick, bind, get. destruct (connectionMode p); [done|].
    destruct answer as [[|c t]|]; [done| |done].
    case_bool_decide as Ht; [|done].
    rewrite (createNode_known _ x y now rnd p Ht). simpl.
    intros g Hg. simpl in *. apply Hstart in Hg. lia.
  - unfold on_keydown, bind, get, when. by case_match.
  - unfold click_object, bind, get.
    destruct (canvas_objects p !! i) as [g|] eqn:Hi; [|done].
    unfold on_mousedown, bind, get. destruct (connectionMode p); [|done].
    destruct (connectionStart p) as [start|] eqn:Hs.
    + case_bool_decide; [|done]. by intros g' Hg'.
    + intros g' [= <-]. apply Hlt. apply list_elem_of_lookup. eauto.
  - done.
Qed.

Lemma page_after_start_created events : ∀ p,
  objects_distinct p → start_created p →
  objects_distinct (page_after events p) ∧ start_created (page_after events p).
Proof.
  induction events as [|e events IH]; intros p Hd Hs; simpl; [done|].
  apply IH; [by apply handle_objects_distinct|by apply handle_start_created].
Qed.

(** X26: a ['clear_canvas'] message does not forget the start of a
    connection.  On any page reached from a loaded page, in connection mode
    with a start chosen, when the message arrives and a node is then added
    and clicked, the page holds that one node and one connection, which
    leads to it from the id of the start: a node that is no longer on the
    canvas. *)
Theorem clear_message_keeps_connection_start events c a type x y now rnd now' :
  let p := page_after events (load_page c) in
  connectionMode p = true → connectionStart p = Some a →
  type ∈ component_types →
  canvasState (page_after (clear_then_connect type x y now rnd now') p) =
    CanvasData [created_node type x y now rnd]
               [Connection (nodeId a) (new_node_id now rnd) (new_conn_id now')].
Proof.
  intros p Hmode Hstart Htype.
  assert (group_obj a < objects_created p)%nat as Ha.
  { destruct (page_after_start_created events (load_page c)) as [_ Hs].
    - apply load_page_objects_distinct.
    - by intros g Hg.
    - by apply Hs. }
  apply template_iff_component_type in Htype.
  assert (type ≠ "") as Hne.
  { intros ->. by destruct Htype. }
  apply template_of_own in Htype.
  clearbody p. destruct p as [cs objs created sel mode start msgs].
  simpl in *. subst mode start.
  destruct type as [|ch type]; [done|].
  unfold clear_then_connect, page_after, handle, foldl.
  unfold on_clear_canvas, on_keydown, on_dblclick, click_object, on_mousedown,
    bind, get, when, modify, ret; simpl.
  rewrite bool_decide_true by done.
  rewrite createNode_known by done. simpl.
  rewrite bool_decide_true by (simpl; lia). done.
Qed.

Lemma clear_message_keeps_connection_start_witness :
  canvasState (page_after (clear_then_connect "LLM" 300 100 1002 "0.bbbbbbbbbbbb" 1003)
                 (page_after [DblClick 100 100 (Some "Input") 1000 "0.aaaaaaaaaaaa";
                              KeyDown "c"; Click 0 1001]
                    (load_page empty_canvas))) =
    CanvasData [created_node "LLM" 300 100 1002 "0.bbbbbbbbbbbb"]
               [Connection "node_1000_aaaaaaaaa" (new_node_id 1002 "0.bbbbbbbbbbbb")
                           (new_conn_id 1003)].
Proof.
  apply (clear_message_keeps_connection_start
           [DblClick 100 100 (Some "Input") 1000 "0.aaaaaaaaaaaa";
            KeyDown "c"; Click 0 1001]
           empty_canvas (Group 0 "node_1000_aaaaaaaaa" "Input" 40 60)
           "LLM" 300 100 1002 "0.bbbbbbbbbbbb" 1003).
  - reflexivity.
  - reflexivity.
  - unfold component_types. set_solver.
Defined.

Lemma for_each_app {A} (body : nat → A → Script page unit) pre : ∀ k q q1 l,
  for_each body k pre q = (Done tt, q1) →
  for_each body k (pre ++ l) q = for_each body (k + length pre) l q1.
Proof.
  induction pre as [|a pre IH]; intros k q q1 l Hpre; simpl in *.
  - injection Hpre as <-. by rewrite Nat.add_0_r.
  - unfold bind in *. destruct (body k a q) as [[[]| |e] q'] eqn:Hb; try done.
    rewrite (IH (S k) q' q1 l Hpre). f_equal. lia.
Qed.

(** X27: when [componentTemplates[type]] is [undefined] for the type of a
    stored node (the type is none of the six component types and no name
    inherited from [Object.prototype]) and a value for the types of the
    nodes before it, drawing the stored canvas again stops at that node
    with a [TypeError]: the nodes before it were copied, it and the nodes
    after it were not, and nothing else changed in the node list. *)
Theorem renderExistingState_stops_at_unknown_type draws p pre n rest :
  nodes (canvasState p) = pre ++ n :: rest →
  Forall (λ m, is_Some (template_of (node_type m))) pre →
  node_type n ∉ component_types →
  node_type n ∉ object_prototype_keys →
  fst (renderExistingState draws p) = Raised (TypeError "template is undefined") ∧
  nodes (canvasState (snd (renderExistingState draws p))) =
    nodes (canvasState p) ++ imap (recreated draws) pre ∧
  length (canvas_objects (snd (renderExistingState draws p))) = length pre.
Proof.
  intros Hnodes Hpre Hn1' Hn2'.
  assert (template_of (node_type n) = None) as Hn.
  { apply eq_None_not_Some. rewrite template_of_found. tauto. }
  assert (renderExistingState draws p =
          for_each (λ i node,
                      bind (createNode (node_type node) (node_x node) (node_y node)
                                       (draws i).1 (draws i).2)
                           (λ _, ret tt))
                   0 (nodes (canvasState p)) (canvas_clear p)) as -> by done.
  rewrite Hnodes.
  destruct (for_each_createNode draws pre 0 (canvas_clear p) Hpre)
    as (Hout & Hn1 & _ & Hobj).
  cbv zeta in Hout, Hn1, Hobj.
  destruct (for_each _ 0 pre (canvas_clear p)) as [o q1] eqn:Hfor.
  simpl in Hout, Hn1, Hobj. subst o.
  rewrite (for_each_app _ pre 0 (canvas_clear p) q1 (n :: rest) Hfor).
  assert (for_each (λ i node,
                      bind (createNode (node_type node) (node_x node) (node_y node)
                                       (draws i).1 (draws i).2)
                           (λ _, ret tt))
                   (0 + length pre) (n :: rest) q1
          = (Raised (TypeError "template is undefined"), q1)) as ->.
  { simpl. unfold bind.
    by rewrite (createNode_unknown_type _ _ _ _ _ q1 Hn). }
  simpl. split; [done|]. split.
  - rewrite Hn1. by rewrite Hnodes.
  - apply (f_equal length) in Hobj.
    rewrite !length_fmap, length_imap in Hobj. done.
Qed.

Lemma renderExistingState_stops_at_unknown_type_witness :
  fst (renderExistingState constant_draws (load_page canvas_with_prompt_node))
    = Raised (TypeError "template is undefined").
Proof.
  apply (renderExistingState_stops_at_unknown_type constant_draws
           (load_page canvas_with_prompt_node)
           [Node "node_1_a" "Input" 10 10 {[ "name" := VStr "q" ]}]
           (Node "node_5_e" "Prompt" 100 10 {[ "name" := VStr "Prompt_5_e" ]})
           [Node "node_2_b" "LLM" 200 10 {[ "name" := VStr "LLM_2_b" ]}]).
  - reflexivity.
  - repeat constructor. vm_compute. eauto.
  - unfold component_types. set_solver.
  - unfold object_prototype_keys. set_solver.
Defined.

End StaleStart.
